(** * Verification of [monitor/update.py]

    A shallow embedding of the intraday portfolio monitor: one sequential
    fetch / aggregate / enrich / serialise pipeline over two external
    providers (market data through [yfinance], news through [gdeltdoc]).

    Python [float] is IEEE 754 binary64, which is what Rocq's primitive
    [float] is, so prices, percentages and weights are primitive floats and
    the arithmetic of the script is the arithmetic of the model.  Python's
    [None] is [option]'s [None]; a raised exception is the [Raise] outcome. *)

From Stdlib Require Import List String Ascii ZArith Bool Arith Lia Setoid.
From Stdlib Require Import Permutation Sorted DecimalString.
From Stdlib Require Import Floats.
Import ListNotations.

Open Scope string_scope.

(* ================================================================== *)
(** * The Python runtime the script relies on *)
(* ================================================================== *)

Module Py.

(** An exception (an instance of [Exception], which is what an [except
    Exception] and a bare [except] of the script both catch) is represented
    by its message, [str(e)]. *)
Definition exn := string.

(** The outcome of evaluating a Python expression. *)
Inductive outcome (A : Type) : Type :=
| Ok (a : A)
| Raise (e : exn).

Arguments Ok {A} a.
Arguments Raise {A} e.

Class Monad (m : Type -> Type) : Type := {
  ret : forall {A}, A -> m A;
  bind : forall {A B}, m A -> (A -> m B) -> m B
}.

Declare Scope py_scope.
Delimit Scope py_scope with py.

Notation "x <- c1 ;; c2" := (bind c1 (fun x => c2))
  (at level 61, c1 at next level, right associativity) : py_scope.
Notation "c1 ;;; c2" := (bind c1 (fun _ => c2))
  (at level 61, right associativity) : py_scope.

Open Scope py_scope.

#[export] Instance outcome_monad : Monad outcome := {
  ret := fun A a => Ok a;
  bind := fun A B c k => match c with Ok a => k a | Raise e => Raise e end
}.

(** [for x in l: acc.append(f(x))], and list comprehensions whose element
    expression may raise: elements are evaluated left to right and the first
    exception ends the loop. *)
Fixpoint mapM {m : Type -> Type} `{Monad m} {A B : Type}
    (f : A -> m B) (l : list A) : m (list B) :=
  match l with
  | [] => ret []
  | x :: xs => y <- f x ;; ys <- mapM f xs ;; ret (y :: ys)
  end.

(** [try: body  except Exception as e: handler(e)] in the pure fragment. *)
Definition try_except {A : Type} (body : outcome A) (handler : exn -> outcome A)
  : outcome A :=
  match body with
  | Ok a => Ok a
  | Raise e => handler e
  end.

(** ** Floats *)

(** [a / b] on floats: Python raises [ZeroDivisionError] when [b == 0]
    (either zero); every other case is the IEEE quotient. *)
Definition truediv (a b : float) : outcome float :=
  if (b =? 0)%float then Raise "float division by zero" else Ok (a / b)%float.

(** [sum(xs)]: a left fold of [+] from [0].  (CPython 3.12 and later
    also carry a compensation term for the rounding error; the statements
    below do not depend on how the additions round, and the sums evaluated
    in the examples are the same either way.) *)
Definition sum (xs : list float) : float :=
  fold_left PrimFloat.add xs 0%float.

(** The float nearest to a small natural number (exact below [2^53]; the
    conversion goes through a 63-bit integer, far above any list length). *)
Definition float_of_nat (n : nat) : float :=
  PrimFloat.of_uint63 (Uint63.of_Z (Z.of_nat n)).

(** [x / len(l)]: a float divided by an [int]; Python raises
    [ZeroDivisionError] exactly when the integer is zero. *)
Definition truediv_int (a : float) (n : nat) : outcome float :=
  if (n =? 0)%nat then Raise "float division by zero"
  else Ok (a / float_of_nat n)%float.

(** ** Strings

    A [string] is a sequence of bytes.  On ASCII text the functions below
    are [str.strip], [str.upper] and [str.split]; on other text Python's
    [strip] and [upper] also know the white space and the letters of
    Unicode, which these do not.  [ascii_text] marks the text on which the
    two agree. *)

Definition ascii_text (s : string) : bool :=
  forallb (fun c => (nat_of_ascii c <? 128)%nat) (list_ascii_of_string s).

(** The characters [str.strip()] removes: tab, line feed, vertical tab, form
    feed, carriage return, the four separators 0x1c-0x1f and space. *)
Definition isspace (c : ascii) : bool :=
  let n := nat_of_ascii c in
  ((9 <=? n)%nat && (n <=? 13)%nat) || ((28 <=? n)%nat && (n <=? 32)%nat).

Fixpoint lstrip (s : string) : string :=
  match s with
  | EmptyString => EmptyString
  | String c s' => if isspace c then lstrip s' else s
  end.

(** Drops trailing white space: a character stays when it is not a space or
    when something non-empty follows it after stripping. *)
Fixpoint rstrip (s : string) : string :=
  match s with
  | EmptyString => EmptyString
  | String c s' =>
      match rstrip s' with
      | EmptyString => if isspace c then EmptyString else String c EmptyString
      | r => String c r
      end
  end.

Definition strip (s : string) : string := rstrip (lstrip s).

Definition upper_char (c : ascii) : ascii :=
  let n := nat_of_ascii c in
  if (97 <=? n)%nat && (n <=? 122)%nat then ascii_of_nat (n - 32) else c.

Fixpoint upper (s : string) : string :=
  match s with
  | EmptyString => EmptyString
  | String c s' => String (upper_char c) (upper s')
  end.

(** [s.split(sep)] for a one-character separator; never the empty list. *)
Fixpoint split (sep : ascii) (s : string) : list string :=
  match s with
  | EmptyString => [EmptyString]
  | String c s' =>
      if Ascii.eqb c sep then EmptyString :: split sep s'
      else match split sep s' with
           | [] => [String c EmptyString]
           | w :: ws => String c w :: ws
           end
  end.

(** [df.head(n)]: the first [n] rows, and for a negative [n] all rows but
    the last [-n]. *)
Definition head {A : Type} (n : Z) (l : list A) : list A :=
  if (0 <=? n)%Z then firstn (Z.to_nat n) l
  else firstn (List.length l - Z.to_nat (- n)) l.

(** Truthiness of a string: [if s:]. *)
Definition truthy_str (s : string) : bool :=
  match s with EmptyString => false | _ => true end.

(** Truthiness of a list: [if l:]. *)
Definition truthy_list {A : Type} (l : list A) : bool :=
  match l with [] => false | _ => true end.

End Py.

Import Py.
Open Scope py_scope.

(* ================================================================== *)
(** * [pct_change] *)
(* ================================================================== *)

(** Lines 13-16. *)
Definition pct_change (open_price last_price : option float)
  : outcome (option float) :=
  match open_price, last_price with
  | None, _ => Ok None
  | Some _, None => Ok None
  | Some o, Some l =>
      if (o =? 0)%float then Ok None
      else q <- truediv (l - o)%float o ;; Ok (Some (q * 100.0)%float)
  end.

(* ================================================================== *)
(** * Data model *)
(* ================================================================== *)

(** A [datetime]: the wall-clock reading in microseconds, and the time zone
    label it carries ([None] for a naive value). *)
Record datetime : Type := {
  wall : Z;
  tzinfo : option string
}.

Definition utc : option string := Some "UTC".

(** [d.replace(tzinfo=tz)]: the reading is kept, only the label changes. *)
Definition replace_tzinfo (d : datetime) (tz : option string) : datetime :=
  {| wall := wall d; tzinfo := tz |}.

(** [pd.Timedelta(hours=h)] holds its length in nanoseconds in 64 bits:
    the hours must fit, or the constructor raises. *)
Definition timedelta_ok (h : Z) : bool :=
  (Z.abs (h * 3600000000000) <=? 9223372036854775807)%Z.

Definition MSG_OUT_OF_BOUNDS : string :=
  "Cannot cast the hours to unit='ns' without overflow.".

(** The length of [pd.Timedelta(hours=h)] in microseconds. *)
Definition Timedelta (h : Z) : outcome Z :=
  if timedelta_ok h then Ok (h * 3600000000)%Z else Raise MSG_OUT_OF_BOUNDS.

(** [d - delta] for a [delta] in microseconds.  A [Timedelta] spans at most
    some 292 years, so from a present-day clock reading the difference stays
    within the years 1 to 9999 of [datetime] and the subtraction does not
    raise. *)
Definition minus_timedelta (d : datetime) (delta : Z) : datetime :=
  {| wall := wall d - delta; tzinfo := tzinfo d |}.

(** [d - pd.Timedelta(hours=h)], once the [Timedelta] exists. *)
Definition minus_hours (d : datetime) (h : Z) : datetime :=
  minus_timedelta d (h * 3600000000).

(** One row of the frame [yf.download] returns with [auto_adjust=False];
    [None] is a missing cell (NaN). *)
Record Candle : Type := {
  Open : option float;
  High : option float;
  Low : option float;
  Close : option float;
  Adj_Close : option float;
  Volume : option float
}.

(** The frame: rows in index order, each with its index timestamp. *)
Definition CandleFrame : Type := list (datetime * Candle).

(** [gdeltdoc.Filters] as the script fills it. *)
Record Filters : Type := {
  keyword : string;
  start_date : string;
  end_date : string
}.

(** A cell of the frame [article_search] returns: a text, or nothing (the
    NaN pandas puts where a record lacks the field). *)
Inductive Cell : Type :=
| Text (s : string)
| Missing.

(** [str(cell)]. *)
Definition str (c : Cell) : string :=
  match c with
  | Text s => s
  | Missing => "nan"
  end.

(** Cell [c1] may stand before cell [c2] in a column sorted largest first:
    a text before the texts that are not greater, and anything before a
    missing cell, which [sort_values] puts last. *)
Definition cell_before (c1 c2 : Cell) : bool :=
  match c1, c2 with
  | _, Missing => true
  | Missing, Text _ => false
  | Text a, Text b => String.leb b a
  end.

(** The frame [article_search] returns: the column names, and the rows as
    cells in column order. *)
Record ArticleTable : Type := {
  columns : list string;
  rows : list (list Cell)
}.

(** An element of a ticker's ["news"] list: the dict of lines 68-73 or the
    dict of line 76. *)
Inductive NewsEntry : Type :=
| Article (title url : Cell) (seendate : string) (domain : Cell)
| NewsError (error : string).

(** The dict built for a ticker: the two shapes [fetch_intraday] returns,
    each with the ["news"] key that [main] adds later ([None]: not yet set). *)
Inductive Item : Type :=
| ErrorItem (ticker error : string) (news : option (list NewsEntry))
| QuoteItem (ticker : string) (open last : float) (pct : option float)
    (last_timestamp_utc : string) (news : option (list NewsEntry)).

(** [it["ticker"]]: both shapes have the key. *)
Definition get_ticker (it : Item) : string :=
  match it with
  | ErrorItem t _ _ => t
  | QuoteItem t _ _ _ _ _ => t
  end.

(** [it.get("pct")]. *)
Definition get_pct (it : Item) : option float :=
  match it with
  | ErrorItem _ _ _ => None
  | QuoteItem _ _ _ p _ _ => p
  end.

(** [it.get("error")]. *)
Definition get_error (it : Item) : option string :=
  match it with
  | ErrorItem _ e _ => Some e
  | QuoteItem _ _ _ _ _ _ => None
  end.

(** [it.get("news")]. *)
Definition get_news (it : Item) : option (list NewsEntry) :=
  match it with
  | ErrorItem _ _ n => n
  | QuoteItem _ _ _ _ _ n => n
  end.

(** [it["news"] = n]. *)
Definition set_news (it : Item) (n : list NewsEntry) : Item :=
  match it with
  | ErrorItem t e _ => ErrorItem t e (Some n)
  | QuoteItem t o l p ts _ => QuoteItem t o l p ts (Some n)
  end.

(** The document of lines 114-120. *)
Record RunReport : Type := {
  generated_at_utc : string;
  tickers : list string;
  portfolio_pct : option float;
  threshold_pct : float;
  items : list Item
}.

(* ================================================================== *)
(** * The outside world *)
(* ================================================================== *)

(** What a run depends on and does not define: the environment variables,
    the library functions it calls and the two providers.  A provider call
    may return or raise. *)
Record Platform : Type := {
  getenv : string -> option string;
  (** [float(s)]; [None] is [ValueError]. *)
  py_float : string -> option float;
  (** the k-th reading of [datetime.now(timezone.utc)] in the run *)
  clock : nat -> Z;
  isoformat : datetime -> string;
  strftime : datetime -> string -> string;
  (** [yf.download(tickers=t, period="1d", interval="5m", ...)] *)
  yf_download : string -> outcome (option CandleFrame);
  (** [GdeltDoc().article_search(f)] *)
  article_search : Filters -> outcome (option ArticleTable);
  (** [df.sort_values(column, ascending=...)] *)
  sort_values : string -> bool -> ArticleTable -> ArticleTable
}.

(** What a run leaves behind: how often it read the clock, the queries it
    sent to each provider, in order, and the file it wrote. *)
Record World : Type := {
  clock_reads : nat;
  downloads : list string;
  searches : list Filters;
  written : option (string * RunReport)
}.

Definition initial_world : World :=
  {| clock_reads := 0; downloads := []; searches := []; written := None |}.

(** Computations of the script: they may raise, and they act on the world. *)
Definition M (A : Type) : Type := World -> outcome A * World.

#[export] Instance M_monad : Monad M := {
  ret := fun A a w => (Ok a, w);
  bind := fun A B c k w =>
    match c w with
    | (Ok a, w') => k a w'
    | (Raise e, w') => (Raise e, w')
    end
}.

(** A pure computation inside [M]. *)
Definition lift {A : Type} (o : outcome A) : M A := fun w => (o, w).

(** [try: body  except Exception as e: handler(e)]. *)
Definition try_exceptM {A : Type} (body : M A) (handler : exn -> M A) : M A :=
  fun w =>
    match body w with
    | (Ok a, w') => (Ok a, w')
    | (Raise e, w') => handler e w'
    end.

Definition tick (w : World) : World :=
  {| clock_reads := S (clock_reads w); downloads := downloads w;
     searches := searches w; written := written w |}.

Definition log_download (t : string) (w : World) : World :=
  {| clock_reads := clock_reads w; downloads := downloads w ++ [t];
     searches := searches w; written := written w |}.

Definition log_search (f : Filters) (w : World) : World :=
  {| clock_reads := clock_reads w; downloads := downloads w;
     searches := searches w ++ [f]; written := written w |}.

Definition log_write (path : string) (doc : RunReport) (w : World) : World :=
  {| clock_reads := clock_reads w; downloads := downloads w;
     searches := searches w; written := Some (path, doc) |}.

(** [datetime.now(timezone.utc)]. *)
Definition now (P : Platform) : M datetime :=
  fun w => (Ok {| wall := clock P (clock_reads w); tzinfo := utc |}, tick w).

(** One outbound market-data query. *)
Definition call_yf_download (P : Platform) (t : string) : M (option CandleFrame) :=
  fun w => (yf_download P t, log_download t w).

(** One outbound news query. *)
Definition call_article_search (P : Platform) (f : Filters) : M (option ArticleTable) :=
  fun w => (article_search P f, log_search f w).

(** [os.makedirs("data", exist_ok=True)] and the [json.dump] into
    [data/latest.json], taken as one step that replaces the file. *)
Definition write_json (path : string) (doc : RunReport) : M unit :=
  fun w => (Ok tt, log_write path doc w).

(** [os.getenv(name, default)]. *)
Definition os_getenv (P : Platform) (name default : string) : string :=
  match getenv P name with
  | Some v => v
  | None => default
  end.

(* ================================================================== *)
(** * The script *)
(* ================================================================== *)

(** Line 8. *)
Definition DEFAULT_TICKERS : list string := ["NTSK"; "KLAR"; "FIG"; "NAVN"].

(** Lines 10-11. *)
Definition now_utc_iso (P : Platform) : M string :=
  d <- now P ;; ret (isoformat P d).

(** ** [fetch_intraday], lines 18-48 *)

(** [df.dropna()]: a row stays when none of its cells is missing. *)
Definition complete (c : Candle) : bool :=
  match Open c, High c, Low c, Close c, Adj_Close c, Volume c with
  | Some _, Some _, Some _, Some _, Some _, Some _ => true
  | _, _, _, _, _, _ => false
  end.

Definition dropna (df : CandleFrame) : CandleFrame :=
  filter (fun r => complete (snd r)) df.

(** [float(cell)]: a missing cell is NaN. *)
Definition cell_float (c : option float) : float :=
  match c with
  | Some v => v
  | None => nan
  end.

(** [df is None or df.empty]. *)
Definition no_data (df : option CandleFrame) : bool :=
  match df with
  | None => true
  | Some [] => true
  | Some (_ :: _) => false
  end.

Definition MSG_NO_DATA : string :=
  "Sem dados intraday (ticker pode não existir na fonte).".

Definition MSG_NO_CANDLES : string :=
  "Sem candles válidos após limpeza.".

Definition fetch_intraday (P : Platform) (ticker : string) : M Item :=
  df <- call_yf_download P ticker ;;
  if no_data df then ret (ErrorItem ticker MSG_NO_DATA None)
  else
    match dropna (match df with Some d => d | None => [] end) with
    | [] => ret (ErrorItem ticker MSG_NO_CANDLES None)
    | first :: rest =>
        let open_day := cell_float (Open (snd first)) in
        let last_row := List.last rest first in
        let last := cell_float (Close (snd last_row)) in
        let ts_last := isoformat P (replace_tzinfo (fst last_row) utc) in
        p <- lift (pct_change (Some open_day) (Some last)) ;;
        ret (QuoteItem ticker open_day last p ts_last None)
    end.

(** ** [fetch_news_gdelt], lines 50-76

    [GdeltDoc()] and [Filters(...)] only store their arguments.  The two
    dates are computed before the [try]: the clock is read, the [Timedelta]
    is built, which raises when the hours do not fit, and the clock is read
    again. *)

(** [r.get(c, default)] on a row of a frame with columns [cols]: the
    default when the frame has no column [c], and otherwise the cell of the
    row in that column, missing or not. *)
Fixpoint row_get (cols : list string) (r : list Cell) (c : string)
    (default : Cell) : Cell :=
  match cols with
  | [] => default
  | k :: ks =>
      if String.eqb k c then
        match r with
        | v :: _ => v
        | [] => Missing
        end
      else row_get ks (tl r) c default
  end.

(** ["seendate" in articles.columns]. *)
Definition has_column (c : string) (a : ArticleTable) : bool :=
  existsb (String.eqb c) (columns a).

(** The dict of lines 68-73. *)
Definition reduce_row (cols : list string) (r : list Cell) : NewsEntry :=
  Article (row_get cols r "title" (Text ""))
          (row_get cols r "url" (Text ""))
          (str (row_get cols r "seendate" (Text "")))
          (row_get cols r "domain" (Text "")).

Definition MSG_NEWS_FAILED : string := "Falha ao buscar notícias no GDELT: ".

Definition fetch_news_gdelt (P : Platform) (query : string) (hours_back : Z)
    (max_n : Z) : M (list NewsEntry) :=
  t_start <- now P ;;
  delta <- lift (Timedelta hours_back) ;;
  t_end <- now P ;;
  let f := {| keyword := query;
              start_date := strftime P (minus_timedelta t_start delta) "%Y-%m-%d";
              end_date := strftime P t_end "%Y-%m-%d" |} in
  try_exceptM
    (articles <- call_article_search P f ;;
     match articles with
     | None => ret []
     | Some a =>
         if (List.length (rows a) =? 0)%nat then ret []
         else
           let a := if has_column "seendate" a
                    then sort_values P "seendate" false a else a in
           ret (map (reduce_row (columns a)) (head max_n (rows a)))
     end)
    (fun e => ret [NewsError (MSG_NEWS_FAILED ++ e)]).

(** ** [main], lines 78-124 *)

(** Line 80. *)
Definition resolve_tickers (P : Platform) : list string :=
  let tickers_env := os_getenv P "TICKERS" "" in
  let l := map (fun t => upper (strip t))
               (filter (fun t => truthy_str (strip t)) (split "," tickers_env)) in
  if truthy_list l then l else DEFAULT_TICKERS.

(** [float(x)], raising [ValueError] when the text is no number. *)
Definition to_float (P : Platform) (x : string) : outcome float :=
  match py_float P x with
  | Some v => Ok v
  | None => Raise ("could not convert string to float: " ++ x)
  end.

(** The body of the [try] of lines 87-90; the result is the new value of
    [weights], which was [None] before. *)
Definition parse_weights (P : Platform) (weights_env : string)
    (tickers : list string) : outcome (option (list float)) :=
  w <- mapM (fun x => to_float P (strip x)) (split "," weights_env) ;;
  if (List.length w =? List.length tickers)%nat && (0 <? Py.sum w)%float then
    let s := Py.sum w in
    ws <- mapM (fun x => truediv x s) w ;;
    Ok (Some ws)
  else Ok None.

(** Lines 83-92. *)
Definition resolve_weights (P : Platform) (tickers : list string)
  : outcome (option (list float)) :=
  let weights_env := os_getenv P "WEIGHTS" "" in
  if truthy_str weights_env then
    try_except (parse_weights P weights_env tickers) (fun _ => Ok None)
  else Ok None.

(** Line 99. *)
Definition valid_pcts (items : list Item) : list float :=
  flat_map (fun it => match get_pct it with Some p => [p] | None => [] end) items.

(** [weights[i] * items[i]["pct"]], with what Python raises when an index or
    the key is missing or the value is [None]. *)
Definition weighted_term (weights : list float) (items : list Item) (i : nat)
  : outcome float :=
  match nth_error weights i with
  | None => Raise "list index out of range"
  | Some w =>
      match nth_error items i with
      | None => Raise "list index out of range"
      | Some (ErrorItem _ _ _) => Raise "'pct'"
      | Some (QuoteItem _ _ _ None _ _) =>
          Raise "unsupported operand type(s) for *: 'float' and 'NoneType'"
      | Some (QuoteItem _ _ _ (Some p) _ _) => Ok (w * p)%float
      end
  end.

(** [if weights]: [None] and the empty list are false. *)
Definition truthy_weights (weights : option (list float)) : bool :=
  match weights with
  | None => false
  | Some ws => truthy_list ws
  end.

(** Lines 99-103. *)
Definition portfolio (weights : option (list float)) (tickers : list string)
    (items : list Item) : outcome (option float) :=
  let valid := valid_pcts items in
  if truthy_weights weights && (List.length valid =? List.length tickers)%nat then
    terms <- mapM (weighted_term (match weights with Some ws => ws | None => [] end) items)
                  (seq 0 (List.length tickers)) ;;
    Ok (Some (Py.sum terms))
  else if truthy_list valid then
    q <- truediv_int (Py.sum valid) (List.length valid) ;;
    Ok (Some q)
  else Ok None.

(** Line 108: [p is not None and abs(p) >= 5.0]. *)
Definition triggers (p : option float) : bool :=
  match p with
  | None => false
  | Some p => (5.0 <=? abs p)%float
  end.

(** Lines 107-112, the body of the loop over [items]. *)
Definition enrich (P : Platform) (it : Item) : M Item :=
  let p := get_pct it in
  if triggers p then
    n <- fetch_news_gdelt P (get_ticker it) 72 5 ;;
    ret (set_news it n)
  else ret (set_news it []).

Definition OUTPUT_PATH : string := "data/latest.json".

Definition main (P : Platform) : M unit :=
  let tickers := resolve_tickers P in
  weights <- lift (resolve_weights P tickers) ;;
  items <- mapM (fetch_intraday P) tickers ;;
  port_pct <- lift (portfolio weights tickers items) ;;
  items <- mapM (enrich P) items ;;
  stamp <- now_utc_iso P ;;
  let out := {| generated_at_utc := stamp;
                tickers := tickers;
                portfolio_pct := port_pct;
                threshold_pct := 5.0;
                items := items |} in
  write_json OUTPUT_PATH out.

(** The document a run wrote, when it wrote one. *)
Definition report_of (w : World) : option RunReport :=
  match written w with
  | Some (_, doc) => Some doc
  | None => None
  end.

(* ================================================================== *)
(** * Test doubles *)
(* ================================================================== *)

(** Substitutable fakes of the library functions and the providers, on which
    the script can be run inside Rocq. *)
Module Fake.

(** Row [r1] may stand before row [r2]: its key is not the smaller one. *)
Definition before (key : list Cell -> Cell) (r1 r2 : list Cell) : Prop :=
  cell_before (key r1) (key r2) = true.

(** A stable insertion sort of rows, largest key first, missing keys last. *)
Fixpoint insert_desc (key : list Cell -> Cell) (r : list Cell)
    (l : list (list Cell)) : list (list Cell) :=
  match l with
  | [] => [r]
  | x :: xs =>
      if cell_before (key r) (key x) then r :: x :: xs
      else x :: insert_desc key r xs
  end.

Definition sort_desc (key : list Cell -> Cell) (l : list (list Cell))
  : list (list Cell) :=
  fold_right (insert_desc key) [] l.

Definition sort_rows (c : string) (ascending : bool) (a : ArticleTable)
  : ArticleTable :=
  let sorted := sort_desc (fun r => row_get (columns a) r c (Text "")) (rows a) in
  {| columns := columns a;
     rows := if ascending then rev sorted else sorted |}.

(** Decimal numerals [ddd], [ddd.ddd], with an optional sign, and the words
    [inf] and [nan]: a fragment of what [float()] accepts, read exactly as
    [float()] reads it while the digits stay below [2^53]. *)
Definition digit (c : ascii) : option Z :=
  let n := nat_of_ascii c in
  if (48 <=? n)%nat && (n <=? 57)%nat then Some (Z.of_nat (n - 48)) else None.

Fixpoint scan (s : string) (seen_dot : bool) (m : Z) (k nd : nat)
  : option (Z * nat) :=
  match s with
  | EmptyString => if (nd =? 0)%nat then None else Some (m, k)
  | String c s' =>
      if Ascii.eqb c "." then
        if seen_dot then None else scan s' true m k nd
      else
        match digit c with
        | Some d => scan s' seen_dot (10 * m + d) (if seen_dot then S k else k) (S nd)
        | None => None
        end
  end.

Definition float_of_Z (z : Z) : float := PrimFloat.of_uint63 (Uint63.of_Z z).

Definition unsigned (s : string) : option float :=
  if String.eqb s "inf" then Some infinity
  else if String.eqb s "nan" then Some nan
  else match scan s false 0 0 0 with
       | Some (m, k) => Some (float_of_Z m / float_of_Z (10 ^ Z.of_nat k))%float
       | None => None
       end.

Definition parse_float (s : string) : option float :=
  match s with
  | String "-" s' => option_map PrimFloat.opp (unsigned s')
  | String "+" s' => unsigned s'
  | _ => unsigned s
  end.

Definition decimal (z : Z) : string := NilZero.string_of_int (Z.to_int z).

Definition iso (d : datetime) : string :=
  decimal (wall d) ++ match tzinfo d with Some tz => " " ++ tz | None => "" end.

(** The day number of a reading; the format is not interpreted. *)
Definition day_number (d : datetime) (fmt : string) : string :=
  decimal (wall d / 86400000000).

Definition candle (o c : float) : Candle :=
  {| Open := Some o; High := Some o; Low := Some o;
     Close := Some c; Adj_Close := Some c; Volume := Some 1000%float |}.

Definition gap : Candle :=
  {| Open := None; High := None; Low := None;
     Close := None; Adj_Close := None; Volume := None |}.

Definition at_ (t : Z) : datetime :=
  {| wall := t; tzinfo := Some "America/New_York" |}.

(** The market-data provider: AAA moved +10%, BBB has no data, CCC has only
    incomplete rows, DDD moved +1%, EEE moved -10%, FFF moved +5%, GGG moved
    +20%, HHH opened at zero; for ZZZ the call raises. *)
Definition market (t : string) : outcome (option CandleFrame) :=
  if String.eqb t "AAA" then
    Ok (Some [(at_ 100, candle 10 10.5); (at_ 200, gap); (at_ 300, candle 10.5 11)])
  else if String.eqb t "BBB" then Ok None
  else if String.eqb t "CCC" then Ok (Some [(at_ 100, gap)])
  else if String.eqb t "DDD" then Ok (Some [(at_ 100, candle 100 101)])
  else if String.eqb t "EEE" then Ok (Some [(at_ 100, candle 100 90)])
  else if String.eqb t "FFF" then Ok (Some [(at_ 100, candle 100 105)])
  else if String.eqb t "GGG" then Ok (Some [(at_ 100, candle 10 12)])
  else if String.eqb t "HHH" then Ok (Some [(at_ 100, candle 0 95)])
  else if String.eqb t "ZZZ" then Raise "connection reset"
  else Ok (Some []).

Definition aaa_articles : ArticleTable :=
  {| columns := ["url"; "title"; "seendate"; "domain"; "language"];
     rows := map (map Text)
               [ ["u1"; "t1"; "20240102T000000Z"; "d1"; "en"];
                 ["u2"; "t2"; "20240105T000000Z"; "d2"; "en"];
                 ["u3"; "t3"; "20240101T000000Z"; "d3"; "en"];
                 ["u4"; "t4"; "20240106T000000Z"; "d4"; "en"];
                 ["u5"; "t5"; "20240103T000000Z"; "d5"; "en"];
                 ["u6"; "t6"; "20240104T000000Z"; "d6"; "en"];
                 ["u7"; "t7"; "20240107T000000Z"; "d7"; "en"] ] |}.

Definition ggg_articles : ArticleTable :=
  {| columns := ["title"; "url"];
     rows := map (map Text) [ ["late"; "u1"]; ["early"; "u2"] ] |}.

(** A frame with all four columns whose records lack some fields. *)
Definition nnn_articles : ArticleTable :=
  {| columns := ["title"; "url"; "seendate"; "domain"];
     rows := [ [Missing; Text "u1"; Missing; Text "d1"];
               [Text "t2"; Text "u2"; Text "20240103T000000Z"; Missing] ] |}.

(** The news provider answers by keyword alone: articles for AAA, GGG and
    NNN, an exception for EEE, an empty frame for FFF, nothing otherwise. *)
Definition news (f : Filters) : outcome (option ArticleTable) :=
  if String.eqb (keyword f) "AAA" then Ok (Some aaa_articles)
  else if String.eqb (keyword f) "GGG" then Ok (Some ggg_articles)
  else if String.eqb (keyword f) "NNN" then Ok (Some nnn_articles)
  else if String.eqb (keyword f) "EEE" then Raise "timeout"
  else if String.eqb (keyword f) "FFF" then
    Ok (Some {| columns := ["title"]; rows := [] |})
  else Ok None.

Definition env (tickers_env weights_env : option string) (name : string)
  : option string :=
  if String.eqb name "TICKERS" then tickers_env
  else if String.eqb name "WEIGHTS" then weights_env
  else None.

(** A platform with the given environment whose clock starts at [t0]. *)
Definition platform (tickers_env weights_env : option string) (t0 : Z)
  : Platform :=
  {| getenv := env tickers_env weights_env;
     py_float := parse_float;
     clock := fun k => (t0 + Z.of_nat k)%Z;
     isoformat := iso;
     strftime := day_number;
     yf_download := market;
     article_search := news;
     sort_values := sort_rows |}.

(** Eight tickers of every kind, no weights. *)
Definition mixed : Platform :=
  platform (Some "aaa, bbb ,ccc,ddd,eee,fff,ggg,hhh") None 1000000000000000.

(** The same inputs as [mixed], read some twelve days later. *)
Definition later : Platform :=
  platform (Some "aaa, bbb ,ccc,ddd,eee,fff,ggg,hhh") None 1001000000000000.

(** Three tickers with data and three weights. *)
Definition weighted : Platform :=
  platform (Some "aaa,ddd,eee") (Some "0.5, 0.25,0.25") 1000000000000000.

(** The provider call for the second of three tickers raises. *)
Definition broken : Platform :=
  platform (Some "bbb,zzz,aaa") None 1000000000000000.

End Fake.

(* ================================================================== *)
(** * Vocabulary of the statements *)
(* ================================================================== *)

(** What [fetch_intraday] computes for a ticker, apart from the query it
    logs: the function itself, observed on the initial world. *)
Definition snapshot (P : Platform) (t : string) : outcome Item :=
  fst (fetch_intraday P t initial_world).

(** The message of the error snapshot a provider result leads to, if any. *)
Definition fetch_error (df : option CandleFrame) : option string :=
  match df with
  | None => Some MSG_NO_DATA
  | Some [] => Some MSG_NO_DATA
  | Some (r :: rs) =>
      match dropna (r :: rs) with
      | [] => Some MSG_NO_CANDLES
      | _ :: _ => None
      end
  end.

(** The filters of a news query for [q] started in world [w]. *)
Definition query_filters (P : Platform) (q : string) (h : Z) (w : World)
  : Filters :=
  {| keyword := q;
     start_date :=
       strftime P (minus_hours {| wall := clock P (clock_reads w); tzinfo := utc |} h)
                "%Y-%m-%d";
     end_date :=
       strftime P {| wall := clock P (S (clock_reads w)); tzinfo := utc |}
                "%Y-%m-%d" |}.

(** The world after a news query for [q] started in [w]. *)
Definition after_query (P : Platform) (q : string) (h : Z) (w : World) : World :=
  log_search (query_filters P q h w) (tick (tick w)).

(** The arithmetic mean of a list of floats; none for the empty list. *)
Definition mean (l : list float) : option float :=
  match l with
  | [] => None
  | _ :: _ => Some (Py.sum l / float_of_nat (List.length l))%float
  end.

(** [sum of weight[i] * pct[i]] for [i] below [n]. *)
Definition weighted_sum (ws pcts : list float) (n : nat) : float :=
  Py.sum (map (fun i => (nth i ws 0 * nth i pcts 0)%float) (seq 0 n)).

(** Row [r1] may stand before row [r2] when sorting by column [c], largest
    first and missing cells last. *)
Definition descending (cols : list string) (c : string)
    (r1 r2 : list Cell) : Prop :=
  cell_before (row_get cols r1 c (Text "")) (row_get cols r2 c (Text "")) = true.

(** The place of column [c] among the columns [cols]. *)
Fixpoint position (c : string) (cols : list string) : nat :=
  match cols with
  | [] => 0
  | k :: ks => if String.eqb k c then 0 else S (position c ks)
  end.

(** What the script expects of [sort_values(c, ascending=False)]: the same
    columns, the same rows, and every row before the rows that follow it. *)
Definition sorts_descending (P : Platform) : Prop :=
  forall (c : string) (a : ArticleTable),
    columns (sort_values P c false a) = columns a /\
    Permutation (rows a) (rows (sort_values P c false a)) /\
    Sorted (descending (columns a) c) (rows (sort_values P c false a)).

(** Two platforms that differ in nothing but the clock and, with it, in the
    dates of the news queries: the same environment, library functions and
    market data, and news answers that are the same for the same keyword. *)
Definition same_inputs (P1 P2 : Platform) : Prop :=
  (forall n, getenv P1 n = getenv P2 n) /\
  (forall s, py_float P1 s = py_float P2 s) /\
  (forall d, isoformat P1 d = isoformat P2 d) /\
  (forall t, yf_download P1 t = yf_download P2 t) /\
  (forall c b a, sort_values P1 c b a = sort_values P2 c b a) /\
  (forall f1 f2, keyword f1 = keyword f2 ->
                 article_search P1 f1 = article_search P2 f2).

(** Two documents equal in every field except [generated_at_utc]. *)
Definition same_but_stamp (d1 d2 : RunReport) : Prop :=
  tickers d1 = tickers d2 /\
  portfolio_pct d1 = portfolio_pct d2 /\
  threshold_pct d1 = threshold_pct d2 /\
  items d1 = items d2.

(** Every entry of the list parses as a float once stripped, and [w] holds
    the parsed numbers. *)
Definition parses (P : Platform) (entries : list string) (w : list float)
  : Prop :=
  Forall2 (fun x v => py_float P (strip x) = Some v) entries w.

(** The news list a query for [q] started in world [w] yields: the function
    [fetch_news_gdelt] itself, as [main] calls it. *)
Definition news_for (P : Platform) (q : string) (w : World) : list NewsEntry :=
  match fst (fetch_news_gdelt P q 72 5 w) with
  | Ok ns => ns
  | Raise _ => []
  end.

(** The world after the loop body of lines 107-112 ran on [it]. *)
Definition after_enrich (P : Platform) (w : World) (it : Item) : World :=
  if triggers (get_pct it) then after_query P (get_ticker it) 72 w else w.

(** The items after the loop of lines 106-112 ran over [its] from world [w]:
    each item gets its ["news"], queried in the world the items before it
    left behind. *)
Fixpoint enrich_all (P : Platform) (its : list Item) (w : World) : list Item :=
  match its with
  | [] => []
  | it :: rest =>
      set_news it (if triggers (get_pct it)
                   then news_for P (get_ticker it) w else [])
      :: enrich_all P rest (after_enrich P w it)
  end.

(** The table whose rows [fetch_news_gdelt] takes the head of. *)
Definition ordered (P : Platform) (a : ArticleTable) : ArticleTable :=
  if has_column "seendate" a then sort_values P "seendate" false a else a.

(** The world after the loop of lines 94-96 fetched the tickers [ts]. *)
Definition after_fetch (ts : list string) (w : World) : World :=
  fold_left (fun w t => log_download t w) ts w.

(** The world after the loop of lines 106-112 ran over [its]. *)
Definition after_news (P : Platform) (its : list Item) (w : World) : World :=
  fold_left (after_enrich P) its w.

(** The value [port_pct] gets from lines 99-103. *)
Definition portfolio_value (weights : option (list float)) (ts : list string)
    (its : list Item) : option float :=
  match portfolio weights ts its with
  | Ok v => v
  | Raise _ => None
  end.

(** The document a run started in [w0] writes once it has fetched the items
    [its] and settled on [weights]. *)
Definition document (P : Platform) (w0 : World) (weights : option (list float))
    (its : list Item) : RunReport :=
  {| generated_at_utc :=
       isoformat P
         {| wall := clock P (clock_reads
                               (after_news P its (after_fetch (resolve_tickers P) w0)));
            tzinfo := utc |};
     tickers := resolve_tickers P;
     portfolio_pct := portfolio_value weights (resolve_tickers P) its;
     threshold_pct := 5.0;
     items := enrich_all P its (after_fetch (resolve_tickers P) w0) |}.

(** Every item has a percentage. *)
Definition all_valid (its : list Item) : Prop :=
  Forall (fun it => get_pct it <> None) its.

(** No item has a percentage. *)
Definition none_valid (its : list Item) : Prop :=
  Forall (fun it => get_pct it = None) its.


(** The k-th clock reading of a run, as [datetime.now(timezone.utc)]
    returns it. *)
Definition reading (P : Platform) (k : nat) : datetime :=
  {| wall := clock P k; tzinfo := utc |}.

(** The character [c] occurs in [s]. *)
Definition occurs (c : ascii) (s : string) : Prop :=
  In c (list_ascii_of_string s).

(** The entries of [TICKERS]: the text between the commas. *)
Definition ticker_entries (P : Platform) : list string :=
  split "," (os_getenv P "TICKERS" "").

(** An entry that is empty once stripped. *)
Definition blank (x : string) : bool :=
  negb (truthy_str (strip x)).

(** A news list as a consumer of the document may meet it: articles only,
    or the single error entry. *)
Definition well_formed_news (ns : list NewsEntry) : Prop :=
  (forall e, In (NewsError e) ns -> ns = [NewsError e]).

(* ================================================================== *)
(** * Properties of the runtime *)
(* ================================================================== *)

Lemma mapM_outcome_ext (A B : Type) (f : A -> outcome B) (g : A -> B)
    (l : list A) :
  (forall x, In x l -> f x = Ok (g x)) -> mapM f l = Ok (map g l).
Proof.
  induction l as [|x xs IH]; intros Hf; simpl.
  - reflexivity.
  - rewrite (Hf x (or_introl eq_refl)).
    rewrite IH by (intros y Hy; apply Hf; right; exact Hy).
    reflexivity.
Qed.

Lemma mapM_outcome_length (A B : Type) (f : A -> outcome B) (l : list A)
    (r : list B) :
  mapM f l = Ok r -> List.length r = List.length l.
Proof.
  revert r; induction l as [|x xs IH]; intros r; simpl.
  - intros H; injection H as <-; reflexivity.
  - destruct (f x) as [y|e]; [|discriminate].
    destruct (mapM f xs) as [ys|e]; [|discriminate].
    intros H; injection H as <-; simpl; f_equal; apply IH; reflexivity.
Qed.

(** A positive float is not a zero. *)
Lemma positive_not_zero (s : float) :
  (0 <? s)%float = true -> (s =? 0)%float = false.
Proof.
  rewrite ltb_spec, eqb_spec.
  unfold SFltb, SFeqb.
  replace (Prim2SF 0) with (S754_zero false) by reflexivity.
  destruct (Prim2SF s) as [sg|sg| |sg m e]; simpl; try discriminate;
    destruct sg; simpl; congruence.
Qed.

Lemma truediv_positive (x s : float) :
  (0 <? s)%float = true -> truediv x s = Ok (x / s)%float.
Proof.
  intros H; unfold truediv; rewrite (positive_not_zero s H); reflexivity.
Qed.

(* ================================================================== *)
(** * [pct_change] *)
(* ================================================================== *)

Lemma pct_change_total (o l : option float) :
  exists r, pct_change o l = Ok r.
Proof.
  destruct o as [o|], l as [l|]; simpl; eauto.
  destruct (o =? 0)%float eqn:E; eauto.
  unfold truediv; rewrite E; simpl; eauto.
Qed.

(** C3: [pct_change(open, last)] is [(last - open) / open * 100] whenever both
    arguments are present and [open] is not zero; it is [None], and nothing is
    raised, when [open] is [None], [last] is [None] or [open == 0]; and the
    three sample values are [5.0], [-5.0] and [None]. *)
Theorem pct_change_spec :
  (forall o l : float,
      (o =? 0)%float = false ->
      pct_change (Some o) (Some l) = Ok (Some ((l - o) / o * 100)%float)) /\
  (forall l : option float, pct_change None l = Ok None) /\
  (forall o : option float, pct_change o None = Ok None) /\
  (forall (o : float) (l : option float),
      (o =? 0)%float = true -> pct_change (Some o) l = Ok None) /\
  (forall o l : option float, exists r, pct_change o l = Ok r) /\
  pct_change (Some 100%float) (Some 105%float) = Ok (Some 5.0%float) /\
  pct_change (Some 100%float) (Some 95%float) = Ok (Some (-5.0)%float) /\
  pct_change (Some 0%float) (Some 95%float) = Ok None.
Proof.
  repeat split.
  - intros o l E. simpl. rewrite E. unfold truediv. rewrite E. reflexivity.
  - intros [o|]; reflexivity.
  - intros o l E. destruct l as [l|]; simpl; [rewrite E|]; reflexivity.
  - apply pct_change_total.
Qed.

(** The formula at an ordinary opening price, and the guard at both zeros. *)
Lemma pct_change_spec_witness :
  pct_change (Some 10%float) (Some 11%float) = Ok (Some ((11 - 10) / 10 * 100)%float) /\
  pct_change (Some (-0)%float) (Some 95%float) = Ok None.
Proof.
  split.
  - apply (proj1 pct_change_spec 10%float 11%float). reflexivity.
  - apply (proj1 (proj2 (proj2 (proj2 pct_change_spec))) (-0)%float (Some 95%float)).
    reflexivity.
Defined.

(* ================================================================== *)
(** * Configuration: the weights *)
(* ================================================================== *)

Section Weights.

Variable P : Platform.

Lemma parse_all_iff (entries : list string) (w : list float) :
  mapM (fun x => to_float P (strip x)) entries = Ok w <-> parses P entries w.
Proof.
  unfold parses. revert w.
  induction entries as [|x xs IH]; intros w; simpl.
  - split.
    + intros H; injection H as <-; constructor.
    + intros H; inversion H; reflexivity.
  - unfold to_float at 1.
    destruct (py_float P (strip x)) as [v|] eqn:Ev.
    + destruct (mapM (fun x0 => to_float P (strip x0)) xs) as [vs|e] eqn:Em.
      * split.
        -- intros H; injection H as <-. constructor; [exact Ev|].
           apply IH; reflexivity.
        -- intros H; inversion H as [|x' v' xs' vs' Hv Hrest]; subst.
           rewrite Ev in Hv; injection Hv as <-.
           apply IH in Hrest. injection Hrest as <-. reflexivity.
      * split; [discriminate|].
        intros H; inversion H as [|x' v' xs' vs' Hv Hrest]; subst.
        apply IH in Hrest. discriminate.
    + split; [discriminate|].
      intros H; inversion H as [|x' v' xs' vs' Hv Hrest]; subst.
      rewrite Ev in Hv; discriminate.
Qed.

Lemma normalise_ok (w : list float) :
  (0 <? Py.sum w)%float = true ->
  mapM (fun x => truediv x (Py.sum w)) w
  = Ok (map (fun x => (x / Py.sum w)%float) w).
Proof.
  intros Hpos. apply mapM_outcome_ext.
  intros x _. apply truediv_positive. exact Hpos.
Qed.

(** The [try] body yields weights exactly in the accepting case. *)
Lemma parse_weights_accepts (weights_env : string) (tickers : list string)
    (ws : list float) :
  parse_weights P weights_env tickers = Ok (Some ws) <->
  exists w, parses P (split "," weights_env) w /\
            List.length w = List.length tickers /\
            (0 <? Py.sum w)%float = true /\
            ws = map (fun x => (x / Py.sum w)%float) w.
Proof.
  unfold parse_weights. simpl.
  destruct (mapM (fun x => to_float P (strip x)) (split "," weights_env))
    as [w|e] eqn:Em.
  - apply parse_all_iff in Em.
    destruct ((List.length w =? List.length tickers)%nat) eqn:El;
      destruct ((0 <? Py.sum w)%float) eqn:Es; simpl.
    + rewrite (normalise_ok w Es). split.
      * intros H; injection H as <-. exists w.
        apply Nat.eqb_eq in El. auto.
      * intros (w' & Hp & _ & _ & ->).
        assert (w' = w) as ->.
        { apply parse_all_iff in Hp, Em. congruence. }
        reflexivity.
    + split; [discriminate|].
      intros (w' & Hp & _ & Hpos & _).
      assert (w' = w) as ->.
      { apply parse_all_iff in Hp, Em. congruence. }
      congruence.
    + split; [discriminate|].
      intros (w' & Hp & Hlen & _ & _).
      assert (w' = w) as ->.
      { apply parse_all_iff in Hp, Em. congruence. }
      apply Nat.eqb_neq in El. contradiction.
    + split; [discriminate|].
      intros (w' & Hp & Hlen & _ & _).
      assert (w' = w) as ->.
      { apply parse_all_iff in Hp, Em. congruence. }
      apply Nat.eqb_neq in El. contradiction.
  - split; [discriminate|].
    intros (w' & Hp & _). apply parse_all_iff in Hp. congruence.
Qed.

(** The configuration step never raises: the bare [except] absorbs whatever
    the [try] body raises. *)
Lemma resolve_weights_total (tickers : list string) :
  exists r, resolve_weights P tickers = Ok r.
Proof.
  unfold resolve_weights.
  destruct (truthy_str (os_getenv P "WEIGHTS" "")); [|eauto].
  unfold try_except.
  destruct (parse_weights P (os_getenv P "WEIGHTS" "") tickers); eauto.
Qed.

(** Accepted weights are as many as the tickers. *)
Lemma resolve_weights_length (tickers : list string) (ws : list float) :
  resolve_weights P tickers = Ok (Some ws) ->
  List.length ws = List.length tickers.
Proof.
  unfold resolve_weights.
  destruct (truthy_str (os_getenv P "WEIGHTS" "")); [|discriminate].
  unfold try_except.
  destruct (parse_weights P (os_getenv P "WEIGHTS" "") tickers) as [r|e] eqn:E;
    [|discriminate].
  intros H; injection H as ->.
  apply parse_weights_accepts in E.
  destruct E as (w & _ & Hlen & _ & ->).
  rewrite length_map. exact Hlen.
Qed.


End Weights.



(* ================================================================== *)
(** * The market snapshot *)
(* ================================================================== *)

Section Fetch.

Variable P : Platform.

(** A fetch logs one query and touches nothing else; its result does not
    depend on the world it starts in. *)
Lemma fetch_intraday_eq (t : string) (w : World) :
  fetch_intraday P t w = (snapshot P t, log_download t w).
Proof.
  unfold snapshot, fetch_intraday, call_yf_download. cbn [bind M_monad].
  destruct (yf_download P t) as [df|e]; [|reflexivity].
  destruct (no_data df); [reflexivity|].
  destruct (dropna match df with Some d => d | None => [] end) as [|r rs];
    [reflexivity|].
  unfold lift.
  destruct (pct_change (Some (cell_float (Open (snd r))))
              (Some (cell_float (Close (snd (last rs r)))))); reflexivity.
Qed.

(** When the provider call raises, so does the fetch. *)
Lemma snapshot_raise (t : string) (e : exn) :
  yf_download P t = Raise e -> snapshot P t = Raise e.
Proof.
  intros H. unfold snapshot, fetch_intraday, call_yf_download.
  cbn [bind M_monad]. rewrite H. reflexivity.
Qed.

(** When the provider call returns, the fetch returns a dict for the ticker
    without a ["news"] key: the error dict when there is no usable row, and
    otherwise a quote whose [pct] is [pct_change(open, last)]. *)
Lemma snapshot_return (t : string) (df : option CandleFrame) :
  yf_download P t = Ok df ->
  match fetch_error df with
  | Some msg => snapshot P t = Ok (ErrorItem t msg None)
  | None => exists o l p ts,
      snapshot P t = Ok (QuoteItem t o l p ts None) /\
      pct_change (Some o) (Some l) = Ok p
  end.
Proof.
  intros H. unfold snapshot, fetch_intraday, call_yf_download.
  cbn [bind M_monad]. rewrite H.
  destruct df as [[|r0 rs0]|]; try reflexivity.
  unfold fetch_error, no_data.
  destruct (dropna (r0 :: rs0)) as [|r rs]; [reflexivity|].
  unfold lift.
  destruct (pct_change_total (Some (cell_float (Open (snd r))))
              (Some (cell_float (Close (snd (last rs r)))))) as [p Hp].
  rewrite Hp. cbn. eauto 8.
Qed.

Lemma snapshot_ticker (t : string) (it : Item) :
  snapshot P t = Ok it -> get_ticker it = t /\ get_news it = None.
Proof.
  intros H.
  destruct (yf_download P t) as [df|e] eqn:E.
  - pose proof (snapshot_return t df E) as S.
    destruct (fetch_error df).
    + rewrite S in H. injection H as <-. split; reflexivity.
    + destruct S as (o & l & p & ts & S & _).
      rewrite S in H. injection H as <-. split; reflexivity.
  - rewrite (snapshot_raise t e E) in H. discriminate.
Qed.

(** The world after fetching the tickers [ts] in turn. *)
Lemma fetch_loop (ts : list string) (w : World) :
  (exists its,
      mapM (fetch_intraday P) ts w
      = (Ok its, fold_left (fun w t => log_download t w) ts w) /\
      Forall2 (fun t it => snapshot P t = Ok it) ts its) \/
  (exists e w', mapM (fetch_intraday P) ts w = (Raise e, w') /\
                exists t, In t ts /\ snapshot P t = Raise e).
Proof.
  revert w. induction ts as [|t ts IH]; intros w.
  - left. exists []. split; [reflexivity|constructor].
  - cbn [mapM bind M_monad]. rewrite fetch_intraday_eq.
    destruct (snapshot P t) as [it|e] eqn:Et.
    + destruct (IH (log_download t w)) as [(its & Hm & Hf)|(e & w' & Hm & t' & Hin & Ht')].
      * left. exists (it :: its). rewrite Hm. split; [reflexivity|].
        constructor; assumption.
      * right. exists e, w'. rewrite Hm. split; [reflexivity|].
        exists t'. split; [right; exact Hin|exact Ht'].
    + right. exists e, (log_download t w). split; [reflexivity|].
      exists t. split; [left; reflexivity|exact Et].
Qed.

Lemma log_downloads_fields (ts : list string) (w : World) :
  let w' := fold_left (fun w t => log_download t w) ts w in
  downloads w' = (downloads w ++ ts)%list /\
  searches w' = searches w /\
  clock_reads w' = clock_reads w /\
  written w' = written w.
Proof.
  revert w. induction ts as [|t ts IH]; intros w; cbn.
  - rewrite app_nil_r. auto.
  - destruct (IH (log_download t w)) as (Hd & Hs & Hc & Hw).
    cbn in *. rewrite Hd, Hs, Hc, Hw. rewrite <- app_assoc. auto.
Qed.

End Fetch.

(* ================================================================== *)
(** * News enrichment *)
(* ================================================================== *)

Section News.

Variable P : Platform.

(** Runs [fetch_news_gdelt] up to the provider's answer: the two clock
    readings, the filters, the logged query. *)
Ltac send_query q h w Hh :=
  unfold fetch_news_gdelt, now, try_exceptM, call_article_search, lift,
    Timedelta;
  cbn [bind M_monad ret]; rewrite Hh;
  change (clock_reads (tick w)) with (S (clock_reads w));
  change (minus_timedelta
            {| wall := clock P (clock_reads w); tzinfo := utc |}
            (h * 3600000000))
    with (minus_hours {| wall := clock P (clock_reads w); tzinfo := utc |} h);
  fold (query_filters P q h w).

Lemma keyword_query_filters (q : string) (h : Z) (w : World) :
  keyword (query_filters P q h w) = q.
Proof. reflexivity. Qed.

(** The provider raised: one error entry, nothing propagates. *)
Lemma fetch_news_raise (q : string) (h n : Z) (w : World) (e : exn) :
  timedelta_ok h = true ->
  article_search P (query_filters P q h w) = Raise e ->
  fetch_news_gdelt P q h n w
  = (Ok [NewsError (MSG_NEWS_FAILED ++ e)], after_query P q h w).
Proof.
  intros Hh H. send_query q h w Hh. rewrite H. reflexivity.
Qed.

(** The provider returned no frame. *)
Lemma fetch_news_none (q : string) (h n : Z) (w : World) :
  timedelta_ok h = true ->
  article_search P (query_filters P q h w) = Ok None ->
  fetch_news_gdelt P q h n w = (Ok [], after_query P q h w).
Proof.
  intros Hh H. send_query q h w Hh. rewrite H. reflexivity.
Qed.

(** The provider returned a frame without rows. *)
Lemma fetch_news_empty (q : string) (h n : Z) (w : World)
    (a : ArticleTable) :
  timedelta_ok h = true ->
  article_search P (query_filters P q h w) = Ok (Some a) ->
  rows a = [] ->
  fetch_news_gdelt P q h n w = (Ok [], after_query P q h w).
Proof.
  intros Hh H Hr. send_query q h w Hh. rewrite H, Hr. reflexivity.
Qed.

(** The provider returned rows: the head of the ordered table, reduced. *)
Lemma fetch_news_rows (q : string) (h n : Z) (w : World)
    (a : ArticleTable) :
  timedelta_ok h = true ->
  article_search P (query_filters P q h w) = Ok (Some a) ->
  rows a <> [] ->
  fetch_news_gdelt P q h n w
  = (Ok (map (reduce_row (columns (ordered P a))) (head n (rows (ordered P a)))),
     after_query P q h w).
Proof.
  intros Hh H Hr. send_query q h w Hh. rewrite H.
  destruct (rows a) as [|r rs] eqn:Er; [contradiction|].
  cbn [List.length Nat.eqb]. fold (ordered P a). reflexivity.
Qed.

(** A news query never raises, and leaves the same world whatever the
    provider did. *)
Lemma fetch_news_total (q : string) (h n : Z) (w : World) :
  timedelta_ok h = true ->
  exists ns, fetch_news_gdelt P q h n w = (Ok ns, after_query P q h w).
Proof.
  intros Hh.
  destruct (article_search P (query_filters P q h w)) as [[a|]|e] eqn:E.
  - destruct (rows a) as [|r rs] eqn:Er.
    + eexists. apply (fetch_news_empty q h n w a Hh E Er).
    + eexists. apply (fetch_news_rows q h n w a Hh E). rewrite Er. discriminate.
  - eexists. apply (fetch_news_none q h n w Hh E).
  - eexists. apply (fetch_news_raise q h n w e Hh E).
Qed.

Lemma row_get_absent (cols : list string) (r : list Cell) (c : string)
    (d : Cell) :
  ~ In c cols -> row_get cols r c d = d.
Proof.
  revert r. induction cols as [|k ks IH]; intros r Hc; [reflexivity|].
  simpl. destruct (String.eqb_spec k c) as [->|_].
  - exfalso. apply Hc. left. reflexivity.
  - apply IH. intros Hin. apply Hc. right. exact Hin.
Qed.

Lemma row_get_present (cols : list string) (r : list Cell) (c : string)
    (d : Cell) :
  In c cols -> row_get cols r c d = nth (position c cols) r Missing.
Proof.
  revert r. induction cols as [|k ks IH]; intros r Hc; [contradiction|].
  simpl. destruct (String.eqb_spec k c) as [->|Hk].
  - destruct r; reflexivity.
  - destruct Hc as [Hc|Hc]; [contradiction|].
    rewrite (IH (tl r) Hc). destruct r; [destruct (position c ks)|]; reflexivity.
Qed.

Lemma has_column_In (c : string) (a : ArticleTable) :
  has_column c a = true <-> In c (columns a).
Proof.
  unfold has_column. rewrite existsb_exists. split.
  - intros (x & Hin & Hx). apply String.eqb_eq in Hx. subst. exact Hin.
  - intros Hin. exists c. split; [exact Hin|apply String.eqb_refl].
Qed.

(** C8, as the script has it: for a provider result with at least one row,
    the rows are taken in descending order of ["seendate"] when the frame
    has that column (rows whose cell is missing last) and in the provider's
    order otherwise; the first five of them are kept; and each is reduced to
    its title, url, seendate and domain.  A field whose column the frame
    lacks is the empty string.  A field whose column the frame has is the
    cell of the row, also when that cell is missing: it stays missing, and
    [seendate], which goes through [str], is the text [nan]. *)
Theorem news_rows_sorted_and_reduced (q : string) (h : Z) (w : World)
    (a : ArticleTable) :
  sorts_descending P ->
  timedelta_ok h = true ->
  article_search P (query_filters P q h w) = Ok (Some a) ->
  rows a <> [] ->
  exists sorted : list (list Cell),
    fst (fetch_news_gdelt P q h 5 w)
    = Ok (map (reduce_row (columns a)) (firstn 5 sorted)) /\
    (In "seendate" (columns a) ->
       Permutation (rows a) sorted /\
       Sorted (descending (columns a) "seendate") sorted) /\
    (~ In "seendate" (columns a) -> sorted = rows a) /\
    (forall r, reduce_row (columns a) r
               = Article (row_get (columns a) r "title" (Text ""))
                         (row_get (columns a) r "url" (Text ""))
                         (str (row_get (columns a) r "seendate" (Text "")))
                         (row_get (columns a) r "domain" (Text ""))) /\
    (forall r c, ~ In c (columns a) ->
                 row_get (columns a) r c (Text "") = Text "") /\
    (forall r c, In c (columns a) ->
                 row_get (columns a) r c (Text "")
                 = nth (position c (columns a)) r Missing) /\
    str (Text "") = "" /\
    str Missing = "nan".
Proof.
  intros Hsort Hh Hs Hr.
  exists (rows (ordered P a)).
  rewrite (fetch_news_rows q h 5 w a Hh Hs Hr). cbn [fst].
  assert (Hcols : columns (ordered P a) = columns a).
  { unfold ordered. destruct (has_column "seendate" a); [|reflexivity].
    apply (Hsort "seendate" a). }
  rewrite Hcols.
  split; [reflexivity|].
  split.
  { intros Hin. apply has_column_In in Hin. unfold ordered. rewrite Hin.
    destruct (Hsort "seendate" a) as (_ & Hperm & Hsorted). auto. }
  split.
  { intros Hnin. unfold ordered.
    destruct (has_column "seendate" a) eqn:Ec; [|reflexivity].
    apply has_column_In in Ec. contradiction. }
  split; [reflexivity|].
  split; [intros r c; apply row_get_absent|].
  split; [intros r c; apply row_get_present|].
  split; reflexivity.
Qed.

(** The loop body: it never raises, it sets ["news"], and it queries the
    provider only for an item that triggers. *)
Lemma enrich_eq (it : Item) (w : World) :
  enrich P it w
  = (Ok (set_news it (if triggers (get_pct it)
                      then news_for P (get_ticker it) w else [])),
     after_enrich P w it).
Proof.
  unfold enrich, after_enrich, news_for.
  destruct (triggers (get_pct it)); [|reflexivity].
  cbn [bind M_monad].
  destruct (fetch_news_total (get_ticker it) 72 5 w eq_refl) as [ns Hns].
  rewrite Hns. reflexivity.
Qed.

Lemma enrich_loop (its : list Item) (w : World) :
  mapM (enrich P) its w
  = (Ok (enrich_all P its w), fold_left (after_enrich P) its w).
Proof.
  revert w. induction its as [|it rest IH]; intros w; [reflexivity|].
  cbn [mapM bind M_monad]. rewrite enrich_eq. rewrite IH. reflexivity.
Qed.

End News.

(* ================================================================== *)
(** * Portfolio aggregation *)
(* ================================================================== *)

Lemma valid_pcts_cons (it : Item) (its : list Item) :
  valid_pcts (it :: its)
  = match get_pct it with
    | Some p => p :: valid_pcts its
    | None => valid_pcts its
    end.
Proof.
  unfold valid_pcts. simpl. destruct (get_pct it); reflexivity.
Qed.

Lemma valid_pcts_length (its : list Item) :
  (List.length (valid_pcts its) <= List.length its)%nat.
Proof.
  induction its as [|it its IH]; [apply Nat.le_refl|].
  rewrite valid_pcts_cons. destruct (get_pct it); simpl; lia.
Qed.

(** As many valid percentages as items: every item has one. *)
Lemma valid_pcts_full (its : list Item) :
  List.length (valid_pcts its) = List.length its ->
  map get_pct its = map Some (valid_pcts its).
Proof.
  induction its as [|it its IH]; [reflexivity|].
  rewrite valid_pcts_cons. pose proof (valid_pcts_length its) as Hle.
  destruct (get_pct it) as [p|] eqn:Ep; simpl; intros Hlen.
  - rewrite Ep. f_equal. apply IH. lia.
  - lia.
Qed.

Lemma valid_pcts_full_iff (its : list Item) :
  List.length (valid_pcts its) = List.length its <->
  Forall (fun it => get_pct it <> None) its.
Proof.
  induction its as [|it its IH]; [split; [constructor|reflexivity]|].
  rewrite valid_pcts_cons. pose proof (valid_pcts_length its) as Hle.
  destruct (get_pct it) as [p|] eqn:Ep; simpl; split.
  - intros Hlen. constructor; [congruence|]. apply IH. lia.
  - intros H. inversion H; subst. f_equal. apply IH. assumption.
  - lia.
  - intros H. inversion H; subst. congruence.
Qed.

Lemma valid_pcts_nil_iff (its : list Item) :
  valid_pcts its = [] <-> Forall (fun it => get_pct it = None) its.
Proof.
  induction its as [|it its IH]; [split; [constructor|reflexivity]|].
  rewrite valid_pcts_cons.
  destruct (get_pct it) as [p|] eqn:Ep; split.
  - discriminate.
  - intros H. inversion H; subst. congruence.
  - intros H. constructor; [exact Ep|]. apply IH. exact H.
  - intros H. inversion H; subst. apply IH. assumption.
Qed.

(** With a weight and a percentage at every index, no term raises. *)
Lemma weighted_term_ok (ws : list float) (its : list Item) (i : nat) :
  List.length (valid_pcts its) = List.length its ->
  (i < List.length ws)%nat ->
  (i < List.length its)%nat ->
  weighted_term ws its i = Ok (nth i ws 0 * nth i (valid_pcts its) 0)%float.
Proof.
  intros Hfull Hw Hi. unfold weighted_term.
  rewrite (nth_error_nth' ws 0%float Hw).
  pose proof (valid_pcts_full its Hfull) as Hmap.
  assert (Hp : option_map get_pct (nth_error its i)
               = Some (Some (nth i (valid_pcts its) 0%float))).
  { rewrite <- nth_error_map, Hmap, nth_error_map.
    rewrite (nth_error_nth' (valid_pcts its) 0%float); [reflexivity|].
    rewrite Hfull. exact Hi. }
  destruct (nth_error its i) as [[t e n|t o l [p|] ts n]|]; simpl in Hp;
    try discriminate.
  injection Hp as ->. reflexivity.
Qed.

(** The aggregation in closed form: it never raises when there are as many
    items, and as many accepted weights, as tickers. *)
Lemma portfolio_eq (weights : option (list float)) (ts : list string)
    (its : list Item) :
  List.length its = List.length ts ->
  (forall ws, weights = Some ws -> List.length ws = List.length ts) ->
  portfolio weights ts its
  = Ok (if truthy_weights weights
           && (List.length (valid_pcts its) =? List.length ts)%nat
        then Some (weighted_sum (match weights with Some ws => ws | None => [] end)
                                (valid_pcts its) (List.length ts))
        else mean (valid_pcts its)).
Proof.
  intros Hlen Hws. unfold portfolio.
  destruct (truthy_weights weights
            && (List.length (valid_pcts its) =? List.length ts)%nat) eqn:Hc.
  - apply andb_true_iff in Hc. destruct Hc as [Ht Hv].
    apply Nat.eqb_eq in Hv.
    destruct weights as [ws|]; [|discriminate].
    specialize (Hws ws eq_refl).
    rewrite (mapM_outcome_ext _ _ (weighted_term ws its)
               (fun i => (nth i ws 0 * nth i (valid_pcts its) 0)%float)).
    + reflexivity.
    + intros i Hin. apply in_seq in Hin.
      apply weighted_term_ok; lia.
  - destruct (valid_pcts its) as [|p ps]; [reflexivity|].
    reflexivity.
Qed.

(* ================================================================== *)
(** * The items after enrichment *)
(* ================================================================== *)

Section Enriched.

Variable P : Platform.

Lemma set_news_fields (it : Item) (n : list NewsEntry) :
  get_ticker (set_news it n) = get_ticker it /\
  get_pct (set_news it n) = get_pct it /\
  get_error (set_news it n) = get_error it /\
  get_news (set_news it n) = Some n.
Proof. destruct it; repeat split. Qed.

Lemma enrich_all_tickers (its : list Item) (w : World) :
  map get_ticker (enrich_all P its w) = map get_ticker its.
Proof.
  revert w. induction its as [|it rest IH]; intros w; [reflexivity|].
  cbn [enrich_all map]. rewrite IH.
  f_equal. apply set_news_fields.
Qed.

Lemma enrich_all_pcts (its : list Item) (w : World) :
  map get_pct (enrich_all P its w) = map get_pct its.
Proof.
  revert w. induction its as [|it rest IH]; intros w; [reflexivity|].
  cbn [enrich_all map]. rewrite IH.
  f_equal. apply set_news_fields.
Qed.

Lemma valid_pcts_map (its its' : list Item) :
  map get_pct its' = map get_pct its -> valid_pcts its' = valid_pcts its.
Proof.
  revert its'. induction its as [|it its IH]; intros [|it' its'] H;
    try discriminate; [reflexivity|].
  injection H as Hp Hrest. rewrite !valid_pcts_cons, Hp, (IH its' Hrest).
  reflexivity.
Qed.

(** Every enriched item is an item of the fetch phase with its news set: to
    the empty list when it does not trigger, to the outcome of one query
    otherwise. *)
Lemma enrich_all_In (its : list Item) (w : World) (it' : Item) :
  In it' (enrich_all P its w) ->
  exists it w1,
    In it its /\
    it' = set_news it (if triggers (get_pct it)
                       then news_for P (get_ticker it) w1 else []).
Proof.
  revert w. induction its as [|it rest IH]; intros w; [intros []|].
  cbn [enrich_all]. intros [<-|Hin].
  - exists it, w. split; [left; reflexivity|reflexivity].
  - destruct (IH _ Hin) as (it0 & w1 & Hin0 & ->).
    exists it0, w1. split; [right; exact Hin0|reflexivity].
Qed.

(** The queries of the loop, by keyword: one per triggering item, in order. *)
Lemma enrich_world (its : list Item) (w : World) :
  let w' := fold_left (after_enrich P) its w in
  map keyword (searches w')
  = (map keyword (searches w)
     ++ map get_ticker (filter (fun it => triggers (get_pct it)) its))%list /\
  downloads w' = downloads w /\
  written w' = written w.
Proof.
  revert w. induction its as [|it rest IH]; intros w; cbn.
  - rewrite app_nil_r. auto.
  - destruct (IH (after_enrich P w it)) as (Hs & Hd & Hw).
    rewrite Hs, Hd, Hw. unfold after_enrich.
    destruct (triggers (get_pct it)); [|auto].
    cbn. rewrite map_app, <- app_assoc. auto.
Qed.

End Enriched.

(* ================================================================== *)
(** * The run *)
(* ================================================================== *)

Section Main.

Variable P : Platform.

Lemma resolve_tickers_nonempty : resolve_tickers P <> [].
Proof.
  unfold resolve_tickers.
  destruct (map (fun t => upper (strip t))
              (filter (fun t => truthy_str (strip t))
                 (split "," (os_getenv P "TICKERS" "")))); discriminate.
Qed.

Lemma fetched_tickers (ts : list string) (its : list Item) :
  Forall2 (fun t it => snapshot P t = Ok it) ts its ->
  map get_ticker its = ts /\ List.length its = List.length ts.
Proof.
  induction 1 as [|t it ts its Ht _ [IHm IHl]]; [split; reflexivity|].
  simpl. rewrite IHm, IHl.
  destruct (snapshot_ticker P t it Ht) as [-> _]. split; reflexivity.
Qed.

(** A run either fetches every ticker, and then completes and writes its
    document, or stops at the first fetch that raises, having written
    nothing. *)
Lemma main_cases (w0 : World) :
  (exists its weights,
      Forall2 (fun t it => snapshot P t = Ok it) (resolve_tickers P) its /\
      resolve_weights P (resolve_tickers P) = Ok weights /\
      portfolio weights (resolve_tickers P) its
      = Ok (portfolio_value weights (resolve_tickers P) its) /\
      main P w0
      = (Ok tt,
         log_write OUTPUT_PATH (document P w0 weights its)
           (tick (after_news P its (after_fetch (resolve_tickers P) w0))))) \/
  (exists e w t,
      main P w0 = (Raise e, w) /\
      In t (resolve_tickers P) /\ snapshot P t = Raise e /\
      written w = written w0).
Proof.
  unfold main.
  destruct (resolve_weights_total P (resolve_tickers P)) as [weights Hw].
  cbn [bind M_monad]. unfold lift. rewrite Hw.
  destruct (fetch_loop P (resolve_tickers P) w0)
    as [(its & Hm & Hf)|(e & w' & Hm & t & Hin & Ht)].
  - left. exists its, weights. rewrite Hm.
    destruct (fetched_tickers _ _ Hf) as [_ Hlen].
    assert (Hwl : forall ws, weights = Some ws ->
                             List.length ws = List.length (resolve_tickers P)).
    { intros ws ->. apply (resolve_weights_length P _ ws Hw). }
    pose proof (portfolio_eq weights (resolve_tickers P) its Hlen Hwl) as Hp.
    assert (Hv : portfolio weights (resolve_tickers P) its
                 = Ok (portfolio_value weights (resolve_tickers P) its)).
    { unfold portfolio_value. rewrite Hp. reflexivity. }
    split; [exact Hf|]. split; [reflexivity|]. split; [exact Hv|].
    rewrite Hv. rewrite enrich_loop. reflexivity.
  - right. exists e, w', t. rewrite Hm.
    split; [reflexivity|]. split; [exact Hin|]. split; [exact Ht|].
    clear - Hm. revert w0 Hm.
    induction (resolve_tickers P) as [|t ts IH]; intros w0 Hm.
    + discriminate.
    + cbn [mapM bind M_monad] in Hm. rewrite fetch_intraday_eq in Hm.
      destruct (snapshot P t).
      * destruct (mapM (fetch_intraday P) ts (log_download t w0))
          as [[its|e'] w''] eqn:E; [discriminate|].
        injection Hm as -> ->. apply (IH _ E).
      * injection Hm as _ <-. reflexivity.
Qed.

(** What a completed run wrote. *)
Lemma main_inv (w0 w : World) :
  main P w0 = (Ok tt, w) ->
  exists its weights,
    Forall2 (fun t it => snapshot P t = Ok it) (resolve_tickers P) its /\
    resolve_weights P (resolve_tickers P) = Ok weights /\
    portfolio weights (resolve_tickers P) its
    = Ok (portfolio_value weights (resolve_tickers P) its) /\
    w = log_write OUTPUT_PATH (document P w0 weights its)
          (tick (after_news P its (after_fetch (resolve_tickers P) w0))).
Proof.
  intros H.
  destruct (main_cases w0) as [(its & weights & Hf & Hw & Hp & Hm)
                              |(e & w' & t & Hm & _)].
  - exists its, weights. rewrite Hm in H. injection H as <-. auto.
  - rewrite Hm in H. discriminate.
Qed.

(** A run whose fetches all return completes. *)
Lemma main_completes (w0 : World) :
  (forall t, In t (resolve_tickers P) -> exists df, yf_download P t = Ok df) ->
  exists w, main P w0 = (Ok tt, w).
Proof.
  intros Hret.
  destruct (main_cases w0) as [(its & weights & _ & _ & _ & Hm)
                              |(e & w' & t & _ & Hin & Ht & _)].
  - eexists. exact Hm.
  - destruct (Hret t Hin) as [df Hdf].
    pose proof (snapshot_return P t df Hdf) as S.
    destruct (fetch_error df).
    + rewrite S in Ht. discriminate.
    + destruct S as (o & l & p & ts & S & _). rewrite S in Ht. discriminate.
Qed.

End Main.

(* ================================================================== *)
(** * The document of a completed run *)
(* ================================================================== *)

Section Report.

Variable P : Platform.

Lemma written_document (w0 w : World) :
  main P w0 = (Ok tt, w) ->
  exists its weights,
    Forall2 (fun t it => snapshot P t = Ok it) (resolve_tickers P) its /\
    resolve_weights P (resolve_tickers P) = Ok weights /\
    written w = Some (OUTPUT_PATH, document P w0 weights its) /\
    searches w
    = searches (after_news P its (after_fetch (resolve_tickers P) w0)) /\
    downloads w
    = downloads (after_news P its (after_fetch (resolve_tickers P) w0)).
Proof.
  intros H. destruct (main_inv P w0 w H) as (its & weights & Hf & Hw & _ & ->).
  exists its, weights. repeat split; assumption.
Qed.

(** C5: in the document of a run, [items] is as long as [tickers], which is
    the resolved ticker list, and the i-th item is the dict of the i-th
    ticker, whatever the fetches returned. *)
Theorem items_follow_tickers (w0 w : World) :
  main P w0 = (Ok tt, w) ->
  exists doc,
    written w = Some (OUTPUT_PATH, doc) /\
    tickers doc = resolve_tickers P /\
    List.length (items doc) = List.length (tickers doc) /\
    map get_ticker (items doc) = tickers doc /\
    (forall i it, nth_error (items doc) i = Some it ->
                  nth_error (tickers doc) i = Some (get_ticker it)).
Proof.
  intros H.
  destruct (written_document w0 w H) as (its & weights & Hf & _ & Hdoc & _).
  exists (document P w0 weights its).
  destruct (fetched_tickers P _ _ Hf) as [Hmap Hlen].
  assert (Htick : map get_ticker (items (document P w0 weights its))
                  = tickers (document P w0 weights its)).
  { cbn [items tickers document]. rewrite enrich_all_tickers. exact Hmap. }
  split; [exact Hdoc|]. split; [reflexivity|].
  split; [rewrite <- Htick; symmetry; apply length_map|].
  split; [exact Htick|].
  intros i it Hi. rewrite <- Htick, nth_error_map, Hi. reflexivity.
Qed.

End Report.

(** Eight tickers, of which two have no quote: eight items in order. *)
Lemma items_follow_tickers_witness :
  exists doc,
    written (snd (main Fake.mixed initial_world)) = Some (OUTPUT_PATH, doc) /\
    tickers doc = resolve_tickers Fake.mixed /\
    List.length (items doc) = List.length (tickers doc) /\
    map get_ticker (items doc) = tickers doc /\
    (forall i it, nth_error (items doc) i = Some it ->
                  nth_error (tickers doc) i = Some (get_ticker it)).
Proof.
  apply (items_follow_tickers Fake.mixed initial_world (snd (main Fake.mixed initial_world))).
  vm_compute. reflexivity.
Defined.

(* ================================================================== *)
(** * The portfolio figure of a run *)
(* ================================================================== *)

Section PortfolioOfRun.

Variable P : Platform.

Lemma document_valid_pcts (w0 : World) (weights : option (list float))
    (its : list Item) :
  valid_pcts (items (document P w0 weights its)) = valid_pcts its /\
  List.length (items (document P w0 weights its)) = List.length its.
Proof.
  cbn [items document]. split.
  - apply valid_pcts_map. apply enrich_all_pcts.
  - rewrite <- (length_map get_pct), enrich_all_pcts. apply length_map.
Qed.

(** C2: the portfolio figure of a run is the weighted sum of the percentages
    when weights were accepted and every ticker has a percentage; in every
    other case it is the mean of the percentages there are; and it is [None]
    exactly when no ticker has a percentage. *)
Theorem portfolio_pct_spec (w0 w : World) :
  main P w0 = (Ok tt, w) ->
  exists doc weights,
    written w = Some (OUTPUT_PATH, doc) /\
    resolve_weights P (tickers doc) = Ok weights /\
    (forall ws, weights = Some ws -> all_valid (items doc) ->
       portfolio_pct doc
       = Some (weighted_sum ws (valid_pcts (items doc))
                 (List.length (tickers doc)))) /\
    (weights = None \/ ~ all_valid (items doc) ->
       portfolio_pct doc = mean (valid_pcts (items doc))) /\
    (portfolio_pct doc = None <-> none_valid (items doc)).
Proof.
  intros H.
  destruct (written_document P w0 w H) as (its & weights & Hf & Hw & Hdoc & _).
  exists (document P w0 weights its), weights.
  destruct (fetched_tickers P _ _ Hf) as [_ Hlen].
  destruct (document_valid_pcts w0 weights its) as [Hv Hl].
  assert (Hwl : forall ws, weights = Some ws ->
                           List.length ws = List.length (resolve_tickers P)).
  { intros ws ->. apply (resolve_weights_length P _ ws Hw). }
  assert (Hp : portfolio_pct (document P w0 weights its)
               = if truthy_weights weights
                    && (List.length (valid_pcts its)
                        =? List.length (resolve_tickers P))%nat
                 then Some (weighted_sum
                              (match weights with Some ws => ws | None => [] end)
                              (valid_pcts its)
                              (List.length (resolve_tickers P)))
                 else mean (valid_pcts its)).
  { cbn [portfolio_pct document]. unfold portfolio_value.
    rewrite (portfolio_eq weights (resolve_tickers P) its Hlen Hwl).
    reflexivity. }
  assert (Hne : List.length (resolve_tickers P) <> 0%nat).
  { pose proof (resolve_tickers_nonempty P) as Hn.
    destruct (resolve_tickers P); [contradiction|discriminate]. }
  unfold all_valid, none_valid.
  split; [exact Hdoc|]. split; [exact Hw|]. split; [|split].
  - intros ws -> Hall. apply valid_pcts_full_iff in Hall.
    rewrite Hv, Hl in Hall. rewrite Hv, Hp.
    cbn [tickers document]. rewrite Hall, Hlen, Nat.eqb_refl.
    specialize (Hwl ws eq_refl).
    destruct ws as [|x xs]; [simpl in Hwl; congruence|reflexivity].
  - intros Hother. rewrite Hv, Hp.
    destruct Hother as [->|Hnot]; [reflexivity|].
    assert (Hneq : List.length (valid_pcts its)
                   <> List.length (resolve_tickers P)).
    { intros Heq. apply Hnot. apply valid_pcts_full_iff.
      rewrite Hv, Hl, Hlen. exact Heq. }
    apply Nat.eqb_neq in Hneq. rewrite Hneq, andb_false_r. reflexivity.
  - rewrite <- valid_pcts_nil_iff, Hv, Hp.
    destruct (truthy_weights weights
              && (List.length (valid_pcts its)
                  =? List.length (resolve_tickers P))%nat) eqn:Hc.
    + apply andb_true_iff in Hc. destruct Hc as [_ Hc].
      apply Nat.eqb_eq in Hc.
      split; [discriminate|].
      intros Hnil. rewrite Hnil in Hc. simpl in Hc. congruence.
    + destruct (valid_pcts its); split; try reflexivity; discriminate.
Qed.

End PortfolioOfRun.

(** Weights 0.5, 0.25, 0.25 on +10%, +1%, -10%: the weighted sum. *)
Lemma portfolio_pct_spec_witness :
  exists doc weights,
    written (snd (main Fake.weighted initial_world)) = Some (OUTPUT_PATH, doc) /\
    resolve_weights Fake.weighted (tickers doc) = Ok weights /\
    (forall ws, weights = Some ws -> all_valid (items doc) ->
       portfolio_pct doc
       = Some (weighted_sum ws (valid_pcts (items doc))
                 (List.length (tickers doc)))) /\
    (weights = None \/ ~ all_valid (items doc) ->
       portfolio_pct doc = mean (valid_pcts (items doc))) /\
    (portfolio_pct doc = None <-> none_valid (items doc)).
Proof.
  apply (portfolio_pct_spec Fake.weighted initial_world
           (snd (main Fake.weighted initial_world))).
  vm_compute. reflexivity.
Defined.

(* ================================================================== *)
(** * News enrichment in a run *)
(* ================================================================== *)

Section NewsOfRun.

Variable P : Platform.

Lemma triggers_iff (p : option float) :
  triggers p = true <-> exists v, p = Some v /\ (5.0 <=? abs v)%float = true.
Proof.
  destruct p as [v|]; simpl; split.
  - intros H. exists v. auto.
  - intros (v' & Hv & H). injection Hv as ->. exact H.
  - discriminate.
  - intros (v' & Hv & _). discriminate.
Qed.

Lemma error_item_never_triggers (it : Item) :
  get_error it <> None -> triggers (get_pct it) = false.
Proof.
  destruct it; simpl; [reflexivity|congruence].
Qed.

Lemma enrich_all_triggered (its : list Item) (w : World) :
  map get_ticker (filter (fun it => triggers (get_pct it)) (enrich_all P its w))
  = map get_ticker (filter (fun it => triggers (get_pct it)) its).
Proof.
  revert w. induction its as [|it rest IH]; intros w; [reflexivity|].
  cbn [enrich_all filter].
  destruct (set_news_fields it (if triggers (get_pct it)
                                then news_for P (get_ticker it) w else []))
    as (Ht & Hp & _).
  rewrite Hp. destruct (triggers (get_pct it)); cbn [map]; rewrite IH.
  - rewrite Ht. reflexivity.
  - reflexivity.
Qed.

Lemma searches_grow (its : list Item) (w : World) (f : Filters) :
  In f (searches w) -> In f (searches (after_news P its w)).
Proof.
  revert w. unfold after_news.
  induction its as [|it rest IH]; intros w Hin; [exact Hin|].
  cbn [fold_left]. apply IH. unfold after_enrich.
  destruct (triggers (get_pct it)); [|exact Hin].
  cbn. apply in_or_app. left. exact Hin.
Qed.

(** Every enriched item comes from a fetched item; when that item triggers,
    its news is the outcome of a query that the run sent. *)
Lemma enrich_all_query (its : list Item) (w : World) (it' : Item) :
  In it' (enrich_all P its w) ->
  exists it w1,
    In it its /\
    it' = set_news it (if triggers (get_pct it)
                       then news_for P (get_ticker it) w1 else []) /\
    (triggers (get_pct it) = true ->
     In (query_filters P (get_ticker it) 72 w1)
        (searches (after_news P its w))).
Proof.
  revert w. induction its as [|it rest IH]; intros w; [intros []|].
  cbn [enrich_all]. intros [<-|Hin].
  - exists it, w. split; [left; reflexivity|]. split; [reflexivity|].
    intros Ht. unfold after_news. cbn [fold_left].
    apply searches_grow. unfold after_enrich. rewrite Ht.
    cbn. apply in_or_app. right. left. reflexivity.
  - destruct (IH _ Hin) as (it0 & w1 & Hin0 & -> & Hq).
    exists it0, w1. split; [right; exact Hin0|]. split; [reflexivity|].
    exact Hq.
Qed.

(** C4: a run sends one news query per item whose [pct] is present with
    [abs(pct) >= 5.0], in the order of the items and with the ticker as the
    keyword, and no other; every other item, an item with a fetch error
    among them, has the empty news list. *)
Theorem news_queries_follow_threshold (w0 w : World) :
  main P w0 = (Ok tt, w) ->
  exists doc,
    written w = Some (OUTPUT_PATH, doc) /\
    map keyword (searches w)
    = (map keyword (searches w0)
       ++ map get_ticker
            (filter (fun it => triggers (get_pct it)) (items doc)))%list /\
    (forall it, In it (items doc) ->
                triggers (get_pct it) = false -> get_news it = Some []) /\
    (forall it, In it (items doc) ->
                get_error it <> None -> triggers (get_pct it) = false) /\
    (forall p, triggers p = true <->
               exists v, p = Some v /\ (5.0 <=? abs v)%float = true).
Proof.
  intros H.
  destruct (written_document P w0 w H)
    as (its & weights & _ & _ & Hdoc & Hs & _).
  exists (document P w0 weights its).
  split; [exact Hdoc|]. split; [|split; [|split]].
  - rewrite Hs. cbn [items document]. rewrite enrich_all_triggered.
    destruct (enrich_world P its (after_fetch (resolve_tickers P) w0))
      as (Hk & _). unfold after_news. rewrite Hk.
    destruct (log_downloads_fields (resolve_tickers P) w0) as (_ & Hs0 & _).
    unfold after_fetch. rewrite Hs0. reflexivity.
  - cbn [items document]. intros it' Hin Ht.
    destruct (enrich_all_In P _ _ _ Hin) as (it & w1 & _ & ->).
    destruct (set_news_fields it (if triggers (get_pct it)
                                  then news_for P (get_ticker it) w1 else []))
      as (_ & Hp & _ & Hn).
    rewrite Hp in Ht. rewrite Hn, Ht. reflexivity.
  - intros it _. apply error_item_never_triggers.
  - apply triggers_iff.
Qed.

(** C7: in a run whose fetches all returned, the run completes and writes its
    document; and every item that triggers has a query among those the run
    sent, with its ticker as keyword, such that if the provider raised on
    that query, whatever the exception, the item's news is the one entry
    carrying the message. *)
Theorem news_failure_is_contained (w0 : World) :
  (forall t, In t (resolve_tickers P) -> exists df, yf_download P t = Ok df) ->
  exists w doc,
    main P w0 = (Ok tt, w) /\
    written w = Some (OUTPUT_PATH, doc) /\
    forall it,
      In it (items doc) -> triggers (get_pct it) = true ->
      exists f,
        In f (searches w) /\ keyword f = get_ticker it /\
        forall e, article_search P f = Raise e ->
                  get_news it = Some [NewsError (MSG_NEWS_FAILED ++ e)].
Proof.
  intros Hret.
  destruct (main_completes P w0 Hret) as [w H].
  destruct (written_document P w0 w H)
    as (its & weights & _ & _ & Hdoc & Hs & _).
  exists w, (document P w0 weights its).
  split; [exact H|]. split; [exact Hdoc|].
  cbn [items document]. intros it' Hin Ht.
  destruct (enrich_all_query _ _ _ Hin) as (it & w1 & _ & -> & Hq).
  destruct (set_news_fields it (if triggers (get_pct it)
                                then news_for P (get_ticker it) w1 else []))
    as (Hk & Hp & _ & Hn).
  rewrite Hp in Ht. rewrite Hk, Hn, Ht.
  exists (query_filters P (get_ticker it) 72 w1).
  split; [rewrite Hs; apply Hq; exact Ht|]. split; [reflexivity|].
  intros e He. unfold news_for.
  rewrite (fetch_news_raise P (get_ticker it) 72 5 w1 e eq_refl He).
  reflexivity.
Qed.

(** C10: when the provider returns no frame, or a frame without rows, and
    does not raise, an item that triggers gets the empty news list after its
    query, which is the list an item below the threshold gets without one. *)
Theorem empty_news_is_ambiguous (it : Item) (w : World) :
  (triggers (get_pct it) = true ->
   article_search P (query_filters P (get_ticker it) 72 w) = Ok None \/
   (exists a, article_search P (query_filters P (get_ticker it) 72 w)
              = Ok (Some a) /\ rows a = []) ->
   enrich P it w
   = (Ok (set_news it []), after_query P (get_ticker it) 72 w)) /\
  (triggers (get_pct it) = false ->
   enrich P it w = (Ok (set_news it []), w)) /\
  get_news (set_news it []) = Some [] /\
  (forall e, get_news (set_news it []) <> Some [NewsError e]).
Proof.
  split; [|split; [|split]].
  - intros Ht Hresp. rewrite enrich_eq. unfold after_enrich, news_for.
    rewrite Ht. destruct Hresp as [Hnone|(a & Ha & Hr)].
    + rewrite (fetch_news_none P _ 72 5 w eq_refl Hnone). reflexivity.
    + rewrite (fetch_news_empty P _ 72 5 w a eq_refl Ha Hr). reflexivity.
  - intros Ht. rewrite enrich_eq. unfold after_enrich. rewrite Ht. reflexivity.
  - apply set_news_fields.
  - intros e. destruct it; discriminate.
Qed.

End NewsOfRun.

(** A run over eight tickers: the queries are those of the four tickers that
    moved by 5% or more. *)
Lemma news_queries_follow_threshold_witness :
  exists doc,
    written (snd (main Fake.mixed initial_world)) = Some (OUTPUT_PATH, doc) /\
    map keyword (searches (snd (main Fake.mixed initial_world)))
    = (map keyword (searches initial_world)
       ++ map get_ticker
            (filter (fun it => triggers (get_pct it)) (items doc)))%list /\
    (forall it, In it (items doc) ->
                triggers (get_pct it) = false -> get_news it = Some []) /\
    (forall it, In it (items doc) ->
                get_error it <> None -> triggers (get_pct it) = false) /\
    (forall p, triggers p = true <->
               exists v, p = Some v /\ (5.0 <=? abs v)%float = true).
Proof.
  apply (news_queries_follow_threshold Fake.mixed initial_world
           (snd (main Fake.mixed initial_world))).
  vm_compute. reflexivity.
Defined.

(** The threshold at the values next to it. *)
Lemma triggers_examples :
  triggers (Some (-5)%float) = true /\
  triggers (Some 5%float) = true /\
  triggers (Some 4.75%float) = false /\
  triggers (Some nan) = false /\
  triggers None = false /\
  map keyword (searches (snd (main Fake.mixed initial_world)))
  = ["AAA"; "EEE"; "FFF"; "GGG"].
Proof. repeat split. Qed.

Lemma fake_fetches_return (a b : option string) (t0 : Z) (t : string) :
  t <> "ZZZ" -> exists df, yf_download (Fake.platform a b t0) t = Ok df.
Proof.
  intros Hz. cbn [yf_download Fake.platform]. unfold Fake.market.
  repeat match goal with
         | |- context [String.eqb t ?s] =>
             destruct (String.eqb_spec t s); [eauto|]
         end;
    try contradiction; eauto.
Qed.

Lemma mixed_fetches_return (t : string) :
  In t (resolve_tickers Fake.mixed) -> exists df, yf_download Fake.mixed t = Ok df.
Proof.
  intros Hin. apply fake_fetches_return. intros ->.
  vm_compute in Hin. repeat destruct Hin as [Hin|Hin]; try discriminate.
  exact Hin.
Qed.

(** The news provider raises for EEE: the run completes all the same. *)
Lemma news_failure_is_contained_witness :
  exists w doc,
    main Fake.mixed initial_world = (Ok tt, w) /\
    written w = Some (OUTPUT_PATH, doc) /\
    forall it,
      In it (items doc) -> triggers (get_pct it) = true ->
      exists f,
        In f (searches w) /\ keyword f = get_ticker it /\
        forall e, article_search Fake.mixed f = Raise e ->
                  get_news it = Some [NewsError (MSG_NEWS_FAILED ++ e)].
Proof.
  apply (news_failure_is_contained Fake.mixed initial_world).
  exact mixed_fetches_return.
Defined.

(** FFF triggers and its query finds nothing; DDD does not trigger. *)
Lemma empty_news_is_ambiguous_witness :
  enrich Fake.mixed (QuoteItem "FFF" 100 105 (Some 5%float) "100 UTC" None)
         initial_world
  = (Ok (QuoteItem "FFF" 100 105 (Some 5%float) "100 UTC" (Some [])),
     after_query Fake.mixed "FFF" 72 initial_world) /\
  enrich Fake.mixed (QuoteItem "DDD" 100 101 (Some 1%float) "100 UTC" None)
         initial_world
  = (Ok (QuoteItem "DDD" 100 101 (Some 1%float) "100 UTC" (Some [])),
     initial_world).
Proof.
  split.
  - apply (proj1 (empty_news_is_ambiguous Fake.mixed
                    (QuoteItem "FFF" 100 105 (Some 5%float) "100 UTC" None)
                    initial_world)).
    + reflexivity.
    + right. eexists. split; reflexivity.
  - apply (proj1 (proj2 (empty_news_is_ambiguous Fake.mixed
                    (QuoteItem "DDD" 100 101 (Some 1%float) "100 UTC" None)
                    initial_world))).
    reflexivity.
Defined.

(* ================================================================== *)
(** * Fetch failures in a run *)
(* ================================================================== *)

Section FetchOfRun.

Variable P : Platform.

Lemma enriched_snapshots (ts : list string) (its : list Item) (w : World) :
  Forall2 (fun t it => snapshot P t = Ok it) ts its ->
  Forall2 (fun t it' =>
             exists it, snapshot P t = Ok it /\
                        get_ticker it' = get_ticker it /\
                        get_error it' = get_error it /\
                        (triggers (get_pct it) = false -> it' = set_news it []))
          ts (enrich_all P its w).
Proof.
  intros H. revert w.
  induction H as [|t it ts its Ht _ IH]; intros w; [constructor|].
  cbn [enrich_all]. constructor; [|apply IH].
  exists it.
  destruct (set_news_fields it (if triggers (get_pct it)
                                then news_for P (get_ticker it) w else []))
    as (Hk & _ & He & _).
  split; [exact Ht|]. split; [exact Hk|]. split; [exact He|].
  intros Hn. rewrite Hn. reflexivity.
Qed.

(** C1, as the script has it: in a run in which every market-data call
    returns, the run completes and writes its document, every ticker is
    queried once and in order, and a ticker for which the provider returned
    no frame, an empty frame or only incomplete rows has the item made of its
    ticker and the error message (with the empty news list [main] adds);
    every other ticker has an item without an error. *)
Theorem fetch_failures_are_captured (w0 : World) :
  (forall t, In t (resolve_tickers P) -> exists df, yf_download P t = Ok df) ->
  exists w doc,
    main P w0 = (Ok tt, w) /\
    written w = Some (OUTPUT_PATH, doc) /\
    downloads w = (downloads w0 ++ resolve_tickers P)%list /\
    Forall2 (fun t it =>
               get_ticker it = t /\
               forall df, yf_download P t = Ok df ->
                 match fetch_error df with
                 | Some msg => it = ErrorItem t msg (Some [])
                 | None => get_error it = None
                 end)
            (resolve_tickers P) (items doc).
Proof.
  intros Hret.
  destruct (main_completes P w0 Hret) as [w H].
  destruct (written_document P w0 w H)
    as (its & weights & Hf & _ & Hdoc & _ & Hd).
  exists w, (document P w0 weights its).
  split; [exact H|]. split; [exact Hdoc|]. split.
  - rewrite Hd.
    destruct (enrich_world P its (after_fetch (resolve_tickers P) w0))
      as (_ & Hd' & _). unfold after_news. rewrite Hd'.
    apply (log_downloads_fields (resolve_tickers P) w0).
  - cbn [items document].
    refine (Forall2_impl _ _ (enriched_snapshots _ _ _ Hf)).
    intros t it' (it & Hs & Hk & He & Hn).
    destruct (snapshot_ticker P t it Hs) as [Ht _].
    split; [rewrite Hk; exact Ht|].
    intros df Hdf. pose proof (snapshot_return P t df Hdf) as S.
    destruct (fetch_error df) as [msg|].
    + rewrite Hs in S. injection S as ->. apply Hn. reflexivity.
    + destruct S as (o & l & p & ts & S & _).
      rewrite Hs in S. injection S as ->. rewrite He. reflexivity.
Qed.

End FetchOfRun.

(** BBB has no data and CCC only an incomplete row: both are error items,
    and the six tickers after them are fetched. *)
Lemma fetch_failures_are_captured_witness :
  exists w doc,
    main Fake.mixed initial_world = (Ok tt, w) /\
    written w = Some (OUTPUT_PATH, doc) /\
    downloads w = (downloads initial_world ++ resolve_tickers Fake.mixed)%list /\
    Forall2 (fun t it =>
               get_ticker it = t /\
               forall df, yf_download Fake.mixed t = Ok df ->
                 match fetch_error df with
                 | Some msg => it = ErrorItem t msg (Some [])
                 | None => get_error it = None
                 end)
            (resolve_tickers Fake.mixed) (items doc).
Proof.
  apply (fetch_failures_are_captured Fake.mixed initial_world).
  exact mixed_fetches_return.
Defined.

(** C1, as stated: a fetch that fails by raising is not captured.  With
    tickers BBB, ZZZ, AAA, where the provider call for ZZZ raises, the run
    ends with that exception: nothing is written and AAA is never fetched. *)
Lemma fetch_exception_aborts_run :
  resolve_tickers Fake.broken = ["BBB"; "ZZZ"; "AAA"] /\
  yf_download Fake.broken "ZZZ" = Raise "connection reset" /\
  fst (main Fake.broken initial_world) = Raise "connection reset" /\
  written (snd (main Fake.broken initial_world)) = None /\
  downloads (snd (main Fake.broken initial_world)) = ["BBB"; "ZZZ"].
Proof. repeat split. Qed.

(* ================================================================== *)
(** * The fake sort meets what the script expects of [sort_values] *)
(* ================================================================== *)

Lemma cell_before_total (c1 c2 : Cell) :
  cell_before c1 c2 = false -> cell_before c2 c1 = true.
Proof.
  destruct c1 as [a|], c2 as [b|]; simpl; try discriminate; try reflexivity.
  intros H. destruct (String.leb_total a b) as [T|T]; congruence.
Qed.

Section FakeSort.

Variable key : list Cell -> Cell.

Lemma insert_desc_perm (r : list Cell) (l : list (list Cell)) :
  Permutation (r :: l) (Fake.insert_desc key r l).
Proof.
  induction l as [|x xs IH]; simpl; [apply Permutation_refl|].
  destruct (cell_before (key r) (key x)); [apply Permutation_refl|].
  eapply perm_trans; [apply perm_swap|]. apply perm_skip. exact IH.
Qed.

Lemma sort_desc_perm (l : list (list Cell)) :
  Permutation l (Fake.sort_desc key l).
Proof.
  induction l as [|x xs IH]; simpl; [constructor|].
  eapply perm_trans; [apply perm_skip; exact IH|apply insert_desc_perm].
Qed.

Lemma insert_desc_head (x r : list Cell) (l : list (list Cell)) :
  Fake.before key x r ->
  HdRel (Fake.before key) x l ->
  HdRel (Fake.before key) x (Fake.insert_desc key r l).
Proof.
  intros Hxr Hl. destruct l as [|y ys]; simpl.
  - constructor. exact Hxr.
  - destruct (cell_before (key r) (key y)); constructor.
    + exact Hxr.
    + inversion Hl; assumption.
Qed.

Lemma insert_desc_sorted (r : list Cell) (l : list (list Cell)) :
  Sorted (Fake.before key) l ->
  Sorted (Fake.before key) (Fake.insert_desc key r l).
Proof.
  induction 1 as [|x xs Hs IH Hh]; simpl.
  - constructor; constructor.
  - destruct (cell_before (key r) (key x)) eqn:E.
    + constructor; [constructor; assumption|]. constructor. exact E.
    + constructor; [exact IH|].
      apply insert_desc_head; [|exact Hh].
      unfold Fake.before. apply cell_before_total. exact E.
Qed.

Lemma sort_desc_sorted (l : list (list Cell)) :
  Sorted (Fake.before key) (Fake.sort_desc key l).
Proof.
  induction l as [|x xs IH]; simpl; [constructor|].
  apply insert_desc_sorted. exact IH.
Qed.

End FakeSort.

Lemma fake_sorts_descending (a b : option string) (t0 : Z) :
  sorts_descending (Fake.platform a b t0).
Proof.
  intros c tbl. cbn [sort_values Fake.platform Fake.sort_rows columns rows].
  split; [reflexivity|]. split.
  - apply sort_desc_perm.
  - apply (sort_desc_sorted (fun r => row_get (columns tbl) r c (Text ""))).
Qed.

(** Seven articles for AAA, out of order: the five most recent, most recent
    first. *)
Lemma news_rows_sorted_and_reduced_witness :
  exists sorted : list (list Cell),
    fst (fetch_news_gdelt Fake.mixed "AAA" 72 5 initial_world)
    = Ok (map (reduce_row (columns Fake.aaa_articles)) (firstn 5 sorted)) /\
    (In "seendate" (columns Fake.aaa_articles) ->
       Permutation (rows Fake.aaa_articles) sorted /\
       Sorted (descending (columns Fake.aaa_articles) "seendate") sorted) /\
    (~ In "seendate" (columns Fake.aaa_articles) ->
       sorted = rows Fake.aaa_articles) /\
    (forall r, reduce_row (columns Fake.aaa_articles) r
               = Article (row_get (columns Fake.aaa_articles) r "title" (Text ""))
                         (row_get (columns Fake.aaa_articles) r "url" (Text ""))
                         (str (row_get (columns Fake.aaa_articles) r "seendate"
                                 (Text "")))
                         (row_get (columns Fake.aaa_articles) r "domain" (Text ""))) /\
    (forall r c, ~ In c (columns Fake.aaa_articles) ->
                 row_get (columns Fake.aaa_articles) r c (Text "") = Text "") /\
    (forall r c, In c (columns Fake.aaa_articles) ->
                 row_get (columns Fake.aaa_articles) r c (Text "")
                 = nth (position c (columns Fake.aaa_articles)) r Missing) /\
    str (Text "") = "" /\
    str Missing = "nan".
Proof.
  apply (news_rows_sorted_and_reduced Fake.mixed "AAA" 72 initial_world
           Fake.aaa_articles).
  - apply fake_sorts_descending.
  - reflexivity.
  - reflexivity.
  - discriminate.
Defined.

(** C8, as stated: a missing field is not always the empty string.  The
    frame for NNN has all four columns; its first record lacks the title and
    the seendate and its second the domain.  The list keeps the missing
    title and domain as missing and gives the text [nan] for the missing
    seendate; the record with a seendate comes first. *)
Lemma missing_cell_is_not_defaulted :
  article_search Fake.mixed (query_filters Fake.mixed "NNN" 72 initial_world)
  = Ok (Some Fake.nnn_articles) /\
  rows Fake.nnn_articles
  = [ [Missing; Text "u1"; Missing; Text "d1"];
      [Text "t2"; Text "u2"; Text "20240103T000000Z"; Missing] ] /\
  fst (fetch_news_gdelt Fake.mixed "NNN" 72 5 initial_world)
  = Ok [Article (Text "t2") (Text "u2") "20240103T000000Z" Missing;
        Article Missing (Text "u1") "nan" (Text "d1")].
Proof. repeat split. Qed.

(** The lists the two kinds of frame lead to. *)
Lemma news_rows_examples :
  fst (fetch_news_gdelt Fake.mixed "AAA" 72 5 initial_world)
  = Ok [Article (Text "t7") (Text "u7") "20240107T000000Z" (Text "d7");
        Article (Text "t4") (Text "u4") "20240106T000000Z" (Text "d4");
        Article (Text "t2") (Text "u2") "20240105T000000Z" (Text "d2");
        Article (Text "t6") (Text "u6") "20240104T000000Z" (Text "d6");
        Article (Text "t5") (Text "u5") "20240103T000000Z" (Text "d5")] /\
  fst (fetch_news_gdelt Fake.mixed "GGG" 72 5 initial_world)
  = Ok [Article (Text "late") (Text "u1") "" (Text "");
        Article (Text "early") (Text "u2") "" (Text "")].
Proof. split; reflexivity. Qed.

(* ================================================================== *)
(** * Two runs on the same inputs *)
(* ================================================================== *)

Section TwoRuns.

Variables P1 P2 : Platform.

Hypothesis same : same_inputs P1 P2.

Lemma mapM_outcome_pointwise (A B : Type) (f g : A -> outcome B) (l : list A) :
  (forall x, f x = g x) -> mapM f l = mapM g l.
Proof.
  intros Hfg. induction l as [|x xs IH]; simpl; [reflexivity|].
  rewrite Hfg, IH. reflexivity.
Qed.

Lemma same_getenv (name default : string) :
  os_getenv P1 name default = os_getenv P2 name default.
Proof.
  unfold os_getenv. destruct same as (Henv & _). rewrite Henv. reflexivity.
Qed.

Lemma same_tickers : resolve_tickers P1 = resolve_tickers P2.
Proof.
  unfold resolve_tickers. rewrite same_getenv. reflexivity.
Qed.

Lemma same_weights (ts : list string) :
  resolve_weights P1 ts = resolve_weights P2 ts.
Proof.
  unfold resolve_weights, parse_weights. rewrite same_getenv.
  rewrite (mapM_outcome_pointwise _ _ (fun x => to_float P1 (strip x))
             (fun x => to_float P2 (strip x))); [reflexivity|].
  intros x. unfold to_float. destruct same as (_ & Hfloat & _).
  rewrite Hfloat. reflexivity.
Qed.

Lemma same_snapshot (t : string) : snapshot P1 t = snapshot P2 t.
Proof.
  destruct same as (_ & _ & Hiso & Hyf & _).
  unfold snapshot, fetch_intraday, call_yf_download. cbn [bind M_monad].
  rewrite Hyf. destruct (yf_download P2 t) as [df|e]; [|reflexivity].
  destruct (no_data df); [reflexivity|].
  destruct (dropna match df with Some d => d | None => [] end) as [|r rs];
    [reflexivity|].
  rewrite Hiso. reflexivity.
Qed.

Lemma same_ordered (a : ArticleTable) : ordered P1 a = ordered P2 a.
Proof.
  destruct same as (_ & _ & _ & _ & Hsort & _).
  unfold ordered. rewrite Hsort. reflexivity.
Qed.

(** The news of a query depends on its keyword, not on when it is sent. *)
Lemma same_news (q : string) (w1 w2 : World) :
  news_for P1 q w1 = news_for P2 q w2.
Proof.
  destruct same as (_ & _ & _ & _ & _ & Hnews).
  pose proof (Hnews (query_filters P1 q 72 w1) (query_filters P2 q 72 w2)
                eq_refl) as Hq.
  unfold news_for.
  destruct (article_search P1 (query_filters P1 q 72 w1)) as [[a|]|e] eqn:E1;
    symmetry in Hq.
  - destruct (rows a) as [|r rs] eqn:Er.
    + rewrite (fetch_news_empty P1 q 72 5 w1 a eq_refl E1 Er).
      rewrite (fetch_news_empty P2 q 72 5 w2 a eq_refl Hq Er). reflexivity.
    + assert (Hne : rows a <> []) by (rewrite Er; discriminate).
      rewrite (fetch_news_rows P1 q 72 5 w1 a eq_refl E1 Hne).
      rewrite (fetch_news_rows P2 q 72 5 w2 a eq_refl Hq Hne).
      rewrite same_ordered. reflexivity.
  - rewrite (fetch_news_none P1 q 72 5 w1 eq_refl E1).
    rewrite (fetch_news_none P2 q 72 5 w2 eq_refl Hq). reflexivity.
  - rewrite (fetch_news_raise P1 q 72 5 w1 e eq_refl E1).
    rewrite (fetch_news_raise P2 q 72 5 w2 e eq_refl Hq). reflexivity.
Qed.

Lemma same_enrich_all (its : list Item) (w1 w2 : World) :
  enrich_all P1 its w1 = enrich_all P2 its w2.
Proof.
  revert w1 w2. induction its as [|it rest IH]; intros w1 w2; [reflexivity|].
  cbn [enrich_all]. rewrite (same_news (get_ticker it) w1 w2).
  rewrite (IH (after_enrich P1 w1 it) (after_enrich P2 w2 it)). reflexivity.
Qed.

Lemma same_fetched (ts : list string) (its1 its2 : list Item) :
  Forall2 (fun t it => snapshot P1 t = Ok it) ts its1 ->
  Forall2 (fun t it => snapshot P2 t = Ok it) ts its2 ->
  its1 = its2.
Proof.
  intros H1. revert its2.
  induction H1 as [|t it ts its Ht _ IH]; intros its2 H2; inversion H2; subst.
  - reflexivity.
  - f_equal; [|apply IH; assumption].
    rewrite same_snapshot in Ht. congruence.
Qed.

Lemma fetched_In (P : Platform) (ts : list string) (its : list Item) (t : string) :
  Forall2 (fun t it => snapshot P t = Ok it) ts its ->
  In t ts -> exists it, snapshot P t = Ok it.
Proof.
  induction 1 as [|t' it ts its Ht _ IH]; intros Hin; [contradiction|].
  destruct Hin as [->|Hin]; [eauto|exact (IH Hin)].
Qed.

(** C9: two runs with the same environment, the same market data and the same
    news for the same keyword, whatever their clocks read: when one completes
    so does the other, and their documents agree in every field other than
    [generated_at_utc]. *)
Theorem run_is_deterministic (w1 w2 w1' : World) :
  main P1 w1 = (Ok tt, w1') ->
  exists w2' d1 d2,
    main P2 w2 = (Ok tt, w2') /\
    written w1' = Some (OUTPUT_PATH, d1) /\
    written w2' = Some (OUTPUT_PATH, d2) /\
    same_but_stamp d1 d2.
Proof.
  intros H1.
  destruct (written_document P1 w1 w1' H1)
    as (its & weights & Hf1 & Hw1 & Hdoc1 & _).
  destruct (main_cases P2 w2)
    as [(its2 & weights2 & Hf2 & Hw2 & _ & Hm2)|(e & w' & t & _ & Hin & Ht & _)].
  - rewrite <- same_tickers in Hf2, Hw2.
    assert (its2 = its) as ->.
    { symmetry. apply (same_fetched _ _ _ Hf1 Hf2). }
    assert (weights2 = weights) as ->.
    { rewrite same_weights in Hw1. congruence. }
    eexists _, (document P1 w1 weights its), (document P2 w2 weights its).
    split; [exact Hm2|]. split; [exact Hdoc1|]. split; [reflexivity|].
    unfold same_but_stamp. cbn [tickers portfolio_pct threshold_pct items document].
    rewrite <- same_tickers.
    split; [reflexivity|]. split; [reflexivity|]. split; [reflexivity|].
    apply same_enrich_all.
  - rewrite <- same_tickers in Hin.
    destruct (fetched_In P1 _ _ t Hf1 Hin) as [it Hit].
    rewrite same_snapshot in Hit. congruence.
Qed.

End TwoRuns.

Lemma fake_same_inputs (a b : option string) (t1 t2 : Z) :
  same_inputs (Fake.platform a b t1) (Fake.platform a b t2).
Proof.
  unfold same_inputs. cbn. repeat split.
  intros f1 f2 Hk. unfold Fake.news. rewrite Hk. reflexivity.
Qed.

(** The eight tickers run twice, the second time twelve days later. *)
Lemma run_is_deterministic_witness :
  exists w2' d1 d2,
    main Fake.later initial_world = (Ok tt, w2') /\
    written (snd (main Fake.mixed initial_world)) = Some (OUTPUT_PATH, d1) /\
    written w2' = Some (OUTPUT_PATH, d2) /\
    same_but_stamp d1 d2.
Proof.
  apply (run_is_deterministic Fake.mixed Fake.later
           (fake_same_inputs _ _ _ _)
           initial_world initial_world (snd (main Fake.mixed initial_world))).
  vm_compute. reflexivity.
Defined.

(** The two runs do differ: in the stamp, and in the dates of the queries. *)
Lemma later_run_differs :
  option_map generated_at_utc (report_of (snd (main Fake.mixed initial_world)))
  = Some "1000000000000008 UTC" /\
  option_map generated_at_utc (report_of (snd (main Fake.later initial_world)))
  = Some "1001000000000008 UTC" /\
  map end_date (searches (snd (main Fake.mixed initial_world)))
  = ["11574"; "11574"; "11574"; "11574"] /\
  map end_date (searches (snd (main Fake.later initial_world)))
  = ["11585"; "11585"; "11585"; "11585"].
Proof. repeat split. Qed.

(* ================================================================== *)
(** * Configuration: the tickers *)
(* ================================================================== *)

Lemma isspace_upper_char (c : ascii) : isspace (upper_char c) = isspace c.
Proof.
  destruct c as [b0 b1 b2 b3 b4 b5 b6 b7];
    destruct b0, b1, b2, b3, b4, b5, b6, b7; reflexivity.
Qed.

Lemma upper_char_idem (c : ascii) : upper_char (upper_char c) = upper_char c.
Proof.
  destruct c as [b0 b1 b2 b3 b4 b5 b6 b7];
    destruct b0, b1, b2, b3, b4, b5, b6, b7; reflexivity.
Qed.

Lemma upper_char_comma (c : ascii) :
  upper_char c = ","%char -> c = ","%char.
Proof.
  destruct c as [b0 b1 b2 b3 b4 b5 b6 b7];
    destruct b0, b1, b2, b3, b4, b5, b6, b7; vm_compute;
    intros H; first [reflexivity | discriminate H].
Qed.

Lemma upper_idem (s : string) : upper (upper s) = upper s.
Proof.
  induction s as [|c s IH]; simpl; [reflexivity|].
  rewrite upper_char_idem, IH. reflexivity.
Qed.

Lemma lstrip_upper (s : string) : lstrip (upper s) = upper (lstrip s).
Proof.
  induction s as [|c s IH]; simpl; [reflexivity|].
  rewrite isspace_upper_char. destruct (isspace c); [exact IH|reflexivity].
Qed.

Lemma rstrip_upper (s : string) : rstrip (upper s) = upper (rstrip s).
Proof.
  induction s as [|c s IH]; simpl; [reflexivity|].
  rewrite IH, isspace_upper_char.
  destruct (rstrip s); simpl; [destruct (isspace c)|]; reflexivity.
Qed.

Lemma strip_upper (s : string) : strip (upper s) = upper (strip s).
Proof.
  unfold strip. rewrite lstrip_upper, rstrip_upper. reflexivity.
Qed.

(** What [lstrip] leaves starts with a character that is no space. *)
Lemma lstrip_head (s : string) :
  lstrip s = "" \/
  exists c r, lstrip s = String c r /\ isspace c = false.
Proof.
  induction s as [|c s IH]; simpl; [left; reflexivity|].
  destruct (isspace c) eqn:E; [exact IH|].
  right. exists c, s. split; [reflexivity|exact E].
Qed.

Lemma rstrip_idem (s : string) : rstrip (rstrip s) = rstrip s.
Proof.
  induction s as [|c s IH]; simpl; [reflexivity|].
  destruct (rstrip s) as [|d r] eqn:E.
  - destruct (isspace c) eqn:Ec; simpl; [reflexivity|].
    rewrite Ec. reflexivity.
  - simpl. simpl in IH. rewrite IH. reflexivity.
Qed.

(** [rstrip] keeps a first character that is no space. *)
Lemma rstrip_keeps_head (c : ascii) (s : string) :
  isspace c = false -> exists r, rstrip (String c s) = String c r.
Proof.
  intros Ec. simpl. destruct (rstrip s) as [|d r].
  - rewrite Ec. eauto.
  - eauto.
Qed.

Lemma strip_idem (s : string) : strip (strip s) = strip s.
Proof.
  unfold strip.
  destruct (lstrip_head s) as [E|(c & r & E & Ec)]; rewrite E.
  - reflexivity.
  - destruct (rstrip_keeps_head c r Ec) as [r' Er]. rewrite Er.
    simpl lstrip. rewrite Ec. rewrite <- Er. apply rstrip_idem.
Qed.

Lemma upper_empty (s : string) : upper s = "" -> s = "".
Proof. destruct s; [reflexivity|discriminate]. Qed.

Lemma occurs_lstrip (c : ascii) (s : string) :
  occurs c (lstrip s) -> occurs c s.
Proof.
  unfold occurs. induction s as [|d s IH]; simpl; [intros []|].
  destruct (isspace d); [intros H; right; exact (IH H)|intros H; exact H].
Qed.

Lemma occurs_rstrip (c : ascii) (s : string) :
  occurs c (rstrip s) -> occurs c s.
Proof.
  unfold occurs. induction s as [|d s IH]; simpl; [intros []|].
  destruct (rstrip s) as [|e r].
  - destruct (isspace d); simpl; [intros []|].
    intros [H|[]]. left. exact H.
  - simpl. intros [H|H]; [left; exact H|right; apply IH; exact H].
Qed.

Lemma occurs_upper_comma (s : string) :
  occurs "," (upper s) -> occurs "," s.
Proof.
  unfold occurs. induction s as [|d s IH]; simpl; [intros []|].
  intros [H|H]; [left; apply upper_char_comma; exact H|right; exact (IH H)].
Qed.

(** No piece of [s.split(sep)] holds the separator. *)
Lemma split_pieces (sep : ascii) (s x : string) :
  In x (split sep s) -> ~ occurs sep x.
Proof.
  unfold occurs. revert x. induction s as [|c s IH]; simpl; intros x.
  - intros [<-|[]] [].
  - destruct (Ascii.eqb_spec c sep) as [->|Hc].
    + intros [<-|Hin]; [intros []|exact (IH x Hin)].
    + destruct (split sep s) as [|w ws].
      * intros [<-|[]]. simpl. intros [H|[]]. contradiction.
      * intros [<-|Hin].
        -- simpl. intros [H|H]; [contradiction|].
           exact (IH w (or_introl eq_refl) H).
        -- exact (IH x (or_intror Hin)).
Qed.

Section Tickers.

Variable P : Platform.

(** The list the comprehension of line 80 builds. *)
Lemma resolve_tickers_cases :
  resolve_tickers P
  = match filter (fun x => negb (blank x)) (ticker_entries P) with
    | [] => DEFAULT_TICKERS
    | kept => map (fun x => upper (strip x)) kept
    end.
Proof.
  unfold resolve_tickers, ticker_entries, blank.
  rewrite (filter_ext (fun x => negb (negb (truthy_str (strip x))))
             (fun x => truthy_str (strip x)))
    by (intros x; apply negb_involutive).
  destruct (filter (fun t => truthy_str (strip t))
              (split "," (os_getenv P "TICKERS" ""))); reflexivity.
Qed.

(** X2: when [TICKERS] is ASCII text, on which [strip] and [upper] are the
    functions Python applies, every resolved ticker is in normal form: not
    empty, without white space at either end, in upper case, and without a
    comma. *)
Theorem tickers_are_normalised (t : string) :
  ascii_text (os_getenv P "TICKERS" "") = true ->
  In t (resolve_tickers P) ->
  t <> "" /\ strip t = t /\ upper t = t /\ ~ occurs "," t.
Proof.
  intros _. rewrite resolve_tickers_cases.
  destruct (filter (fun x => negb (blank x)) (ticker_entries P)) as [|k ks] eqn:E.
  - intros Hin. vm_compute in Hin.
    repeat destruct Hin as [<-|Hin]; try contradiction;
      (split; [discriminate|]; split; [reflexivity|]; split; [reflexivity|]);
      vm_compute; intros H; repeat destruct H as [H|H]; try discriminate H;
      exact H.
  - rewrite <- E. intros Hin. apply in_map_iff in Hin.
    destruct Hin as (x & <- & Hx). apply filter_In in Hx.
    destruct Hx as [Hx Hnb]. unfold blank in Hnb.
    rewrite negb_involutive in Hnb.
    split; [|split; [|split]].
    + intros Hu. apply upper_empty in Hu. rewrite Hu in Hnb. discriminate.
    + rewrite strip_upper, strip_idem. reflexivity.
    + apply upper_idem.
    + intros Hc. apply occurs_upper_comma in Hc. unfold strip in Hc.
      apply occurs_rstrip, occurs_lstrip in Hc.
      exact (split_pieces _ _ _ Hx Hc).
Qed.

End Tickers.

(** The second entry of [" aaa, bbb ,ccc,..."]. *)
Lemma tickers_are_normalised_witness :
  "BBB" <> "" /\ strip "BBB" = "BBB" /\ upper "BBB" = "BBB" /\ ~ occurs "," "BBB".
Proof.
  apply (tickers_are_normalised Fake.mixed "BBB").
  - reflexivity.
  - vm_compute. right. left. reflexivity.
Defined.

(* ================================================================== *)
(** * The quote of a ticker *)
(* ================================================================== *)

Section Quote.

Variable P : Platform.

Lemma complete_cells (c : Candle) :
  complete c = true ->
  exists o cl, Open c = Some o /\ Close c = Some cl.
Proof.
  unfold complete.
  destruct (Open c) as [o|], (High c), (Low c), (Close c) as [cl|],
    (Adj_Close c), (Volume c); try discriminate.
  intros _. eauto.
Qed.

Lemma last_In (A : Type) (l : list A) (d : A) : In (last l d) (d :: l).
Proof.
  induction l as [|x xs IH]; [left; reflexivity|].
  destruct xs as [|y ys]; [right; left; reflexivity|].
  change (last (x :: y :: ys) d) with (last (y :: ys) d).
  destruct IH as [H|H]; [left; exact H|right; right; exact H].
Qed.

(** X3: when the provider returns a frame with at least one complete row,
    the quote takes [open] from the first complete row and [last] and the
    timestamp from the last complete row, rows with a missing cell being
    passed over wherever they stand; the timestamp keeps its wall-clock
    reading and is relabelled UTC; [pct] is [pct_change(open, last)]. *)
Theorem quote_from_complete_rows (t : string) (df : CandleFrame)
    (first : datetime * Candle) (rest : CandleFrame) :
  yf_download P t = Ok (Some df) ->
  dropna df = first :: rest ->
  exists o c p,
    Open (snd first) = Some o /\
    Close (snd (last rest first)) = Some c /\
    pct_change (Some o) (Some c) = Ok p /\
    snapshot P t
    = Ok (QuoteItem t o c p
            (isoformat P {| wall := wall (fst (last rest first));
                            tzinfo := Some "UTC" |})
            None).
Proof.
  intros Hdl Hrows.
  assert (Hfirst : complete (snd first) = true).
  { assert (Hin : In first (dropna df)) by (rewrite Hrows; left; reflexivity).
    apply filter_In in Hin. apply Hin. }
  assert (Hlast : complete (snd (last rest first)) = true).
  { assert (Hin : In (last rest first) (dropna df)).
    { rewrite Hrows. apply last_In. }
    apply filter_In in Hin. apply Hin. }
  destruct (complete_cells _ Hfirst) as (o & _ & Ho & _).
  destruct (complete_cells _ Hlast) as (_ & c & _ & Hc).
  destruct (pct_change_total (Some o) (Some c)) as [p Hp].
  exists o, c, p. split; [exact Ho|]. split; [exact Hc|]. split; [exact Hp|].
  unfold snapshot, fetch_intraday, call_yf_download. cbn [bind M_monad].
  rewrite Hdl.
  destruct df as [|r0 rs0]; [discriminate Hrows|].
  cbn [no_data]. rewrite Hrows, Ho, Hc. cbn [cell_float].
  unfold lift. rewrite Hp. reflexivity.
Qed.

Lemma snapshot_raise_iff (t : string) (e : exn) :
  snapshot P t = Raise e <-> yf_download P t = Raise e.
Proof.
  split; [|apply snapshot_raise].
  intros H. destruct (yf_download P t) as [df|e'] eqn:E.
  - pose proof (snapshot_return P t df E) as S.
    destruct (fetch_error df).
    + rewrite S in H. discriminate.
    + destruct S as (o & l & p & ts & S & _). rewrite S in H. discriminate.
  - rewrite (snapshot_raise P t e' E) in H. injection H as ->. reflexivity.
Qed.

Lemma snapshot_ok_iff (t : string) :
  (exists it, snapshot P t = Ok it) <-> (exists df, yf_download P t = Ok df).
Proof.
  split.
  - intros [it H]. destruct (yf_download P t) as [df|e] eqn:E; [eauto|].
    rewrite (snapshot_raise P t e E) in H. discriminate.
  - intros [df E]. pose proof (snapshot_return P t df E) as S.
    destruct (fetch_error df); [eauto|].
    destruct S as (o & l & p & ts & S & _). eauto.
Qed.

Lemma fetched_source (ts : list string) (its : list Item) (it : Item) :
  Forall2 (fun t it => snapshot P t = Ok it) ts its ->
  In it its -> exists t, In t ts /\ snapshot P t = Ok it.
Proof.
  induction 1 as [|t' it' ts its Ht _ IH]; intros Hin; [contradiction|].
  destruct Hin as [->|Hin].
  - exists t'. split; [left; reflexivity|exact Ht].
  - destruct (IH Hin) as (t & Hin' & Hs). exists t. split; [right|]; assumption.
Qed.

(** The two shapes a fetched item has. *)
Lemma snapshot_shape (t : string) (it : Item) :
  snapshot P t = Ok it ->
  match it with
  | ErrorItem t' e n =>
      t' = t /\ n = None /\ (e = MSG_NO_DATA \/ e = MSG_NO_CANDLES)
  | QuoteItem t' o l p _ n =>
      t' = t /\ n = None /\ pct_change (Some o) (Some l) = Ok p
  end.
Proof.
  intros H. destruct (yf_download P t) as [df|e] eqn:E.
  - pose proof (snapshot_return P t df E) as S.
    destruct (fetch_error df) as [msg|] eqn:Ef.
    + rewrite S in H. injection H as <-.
      split; [reflexivity|]. split; [reflexivity|].
      unfold fetch_error in Ef. destruct df as [[|r rs]|].
      * injection Ef as <-. left. reflexivity.
      * destruct (dropna (r :: rs)); [|discriminate].
        injection Ef as <-. right. reflexivity.
      * injection Ef as <-. left. reflexivity.
    + destruct S as (o & l & p & ts & S & Hp).
      rewrite S in H. injection H as <-. auto.
  - rewrite (snapshot_raise P t e E) in H. discriminate.
Qed.

(** X4: in the document of a run every item is of one of two kinds.  An error
    item carries one of the two messages and the empty news list.  A quote
    item has a [pct] that agrees with its [open] and [last]: [None] when
    [open == 0], and [(last - open) / open * 100] otherwise. *)
Theorem items_are_consistent (w0 w : World) :
  main P w0 = (Ok tt, w) ->
  exists doc,
    written w = Some (OUTPUT_PATH, doc) /\
    forall it, In it (items doc) ->
      match it with
      | ErrorItem _ e n =>
          n = Some [] /\ (e = MSG_NO_DATA \/ e = MSG_NO_CANDLES)
      | QuoteItem _ o l p _ n =>
          n <> None /\
          ((o =? 0)%float = true /\ p = None \/
           (o =? 0)%float = false /\ p = Some ((l - o) / o * 100)%float)
      end.
Proof.
  intros H.
  destruct (written_document P w0 w H) as (its & weights & Hf & _ & Hdoc & _).
  exists (document P w0 weights its). split; [exact Hdoc|].
  cbn [items document]. intros it' Hin.
  destruct (enrich_all_In P _ _ _ Hin) as (it & w1 & Hin0 & ->).
  destruct (fetched_source _ _ _ Hf Hin0) as (t & _ & Hs).
  pose proof (snapshot_shape t it Hs) as Hshape.
  destruct it as [t' e n|t' o l p ts n]; cbn [set_news get_pct triggers].
  - destruct Hshape as (_ & _ & He). split; [reflexivity|exact He].
  - destruct Hshape as (_ & _ & Hp). split; [discriminate|].
    destruct (o =? 0)%float eqn:Eo.
    + left. split; [reflexivity|].
      simpl in Hp. rewrite Eo in Hp. injection Hp as <-. reflexivity.
    + right. split; [reflexivity|].
      simpl in Hp. rewrite Eo in Hp. unfold truediv in Hp. rewrite Eo in Hp.
      simpl in Hp. injection Hp as <-. reflexivity.
Qed.

End Quote.

(** AAA: three rows, the middle one incomplete. *)
Lemma quote_from_complete_rows_witness :
  exists o c p,
    Open (Fake.candle 10 10.5) = Some o /\
    Close (Fake.candle 10.5 11) = Some c /\
    pct_change (Some o) (Some c) = Ok p /\
    snapshot Fake.mixed "AAA"
    = Ok (QuoteItem "AAA" o c p
            (isoformat Fake.mixed {| wall := 300; tzinfo := Some "UTC" |})
            None).
Proof.
  apply (quote_from_complete_rows Fake.mixed "AAA"
           [(Fake.at_ 100, Fake.candle 10 10.5); (Fake.at_ 200, Fake.gap);
            (Fake.at_ 300, Fake.candle 10.5 11)]
           (Fake.at_ 100, Fake.candle 10 10.5)
           [(Fake.at_ 300, Fake.candle 10.5 11)]);
    reflexivity.
Defined.

(** The eight items of the mixed run. *)
Lemma items_are_consistent_witness :
  exists doc,
    written (snd (main Fake.mixed initial_world)) = Some (OUTPUT_PATH, doc) /\
    forall it, In it (items doc) ->
      match it with
      | ErrorItem _ e n =>
          n = Some [] /\ (e = MSG_NO_DATA \/ e = MSG_NO_CANDLES)
      | QuoteItem _ o l p _ n =>
          n <> None /\
          ((o =? 0)%float = true /\ p = None \/
           (o =? 0)%float = false /\ p = Some ((l - o) / o * 100)%float)
      end.
Proof.
  apply (items_are_consistent Fake.mixed initial_world
           (snd (main Fake.mixed initial_world))).
  vm_compute. reflexivity.
Defined.

(* ================================================================== *)
(** * When a run completes and when it stops *)
(* ================================================================== *)

Section Abort.

Variable P : Platform.

(** X5: when the market-data call raises for a resolved ticker and returned
    for every ticker before it, the run ends there with that exception: the
    tickers up to it were queried, the tickers after it were not, no news
    query was sent, the clock was not read and nothing was written.  (The
    run never reaches the final write, so this does not depend on the write
    succeeding.) *)
Theorem run_aborts_at_first_raise (w0 : World) (pre post : list string)
    (t : string) (e : exn) :
  resolve_tickers P = (pre ++ t :: post)%list ->
  (forall t', In t' pre -> exists df, yf_download P t' = Ok df) ->
  yf_download P t = Raise e ->
  exists w,
    main P w0 = (Raise e, w) /\
    downloads w = (downloads w0 ++ pre ++ [t])%list /\
    searches w = searches w0 /\
    clock_reads w = clock_reads w0 /\
    written w = written w0.
Proof.
  intros Hts Hpre Ht.
  assert (Hloop : forall w,
             mapM (fetch_intraday P) (pre ++ t :: post)%list w
             = (Raise e, log_download t (after_fetch pre w))).
  { clear Hts. induction pre as [|p ps IH]; intros w.
    - cbn [app mapM bind M_monad]. rewrite fetch_intraday_eq.
      rewrite (snapshot_raise P t e Ht). reflexivity.
    - cbn [app mapM bind M_monad]. rewrite fetch_intraday_eq.
      destruct (proj2 (snapshot_ok_iff P p) (Hpre p (or_introl eq_refl)))
        as [it Hit].
      rewrite Hit, IH; [reflexivity|].
      intros t' Hin. apply Hpre. right. exact Hin. }
  exists (log_download t (after_fetch pre w0)). split.
  - unfold main.
    destruct (resolve_weights_total P (resolve_tickers P)) as [weights Hw].
    cbn [bind M_monad]. unfold lift. rewrite Hw, Hts, Hloop. reflexivity.
  - destruct (log_downloads_fields pre w0) as (Hd & Hs & Hc & Hw).
    unfold after_fetch.
    cbn [downloads searches clock_reads written log_download].
    rewrite Hd, Hs, Hc, Hw, <- app_assoc. auto.
Qed.

(** X6: a run completes, writing its document, exactly when no market-data
    call for a resolved ticker raises: neither the weights, nor the
    aggregation, nor the news step can end it.  (The final write itself is
    taken to succeed.) *)
Theorem run_completes_iff (w0 : World) :
  (exists w doc, main P w0 = (Ok tt, w) /\ written w = Some (OUTPUT_PATH, doc))
  <->
  (forall t, In t (resolve_tickers P) -> exists df, yf_download P t = Ok df).
Proof.
  split.
  - intros (w & doc & H & _) t Hin.
    destruct (written_document P w0 w H) as (its & _ & Hf & _).
    apply snapshot_ok_iff. exact (fetched_In P _ _ t Hf Hin).
  - intros Hret. destruct (main_completes P w0 Hret) as [w H].
    destruct (written_document P w0 w H) as (its & weights & _ & _ & Hdoc & _).
    eauto.
Qed.

End Abort.

(** BBB, ZZZ, AAA with a provider that raises for ZZZ. *)
Lemma run_aborts_at_first_raise_witness :
  exists w,
    main Fake.broken initial_world = (Raise "connection reset", w) /\
    downloads w = (downloads initial_world ++ ["BBB"] ++ ["ZZZ"])%list /\
    searches w = searches initial_world /\
    clock_reads w = clock_reads initial_world /\
    written w = written initial_world.
Proof.
  apply (run_aborts_at_first_raise Fake.broken initial_world
           ["BBB"] ["AAA"] "ZZZ" "connection reset").
  - reflexivity.
  - intros t' [<-|[]]. eexists. reflexivity.
  - reflexivity.
Defined.

(* ================================================================== *)
(** * The contract of a news query *)
(* ================================================================== *)

Section NewsContract.

Variable P : Platform.

Lemma reduced_rows_are_articles (cols : list string)
    (l : list (list Cell)) (e : string) :
  ~ In (NewsError e) (map (reduce_row cols) l).
Proof.
  intros Hin. apply in_map_iff in Hin. destruct Hin as (r & Hr & _).
  discriminate Hr.
Qed.

Lemma head_length (A : Type) (n : Z) (l : list A) :
  (0 <= n)%Z -> (List.length (head n l) <= Z.to_nat n)%nat.
Proof.
  intros Hn. unfold head.
  destruct (0 <=? n)%Z eqn:E; [|apply Z.leb_gt in E; lia].
  pose proof (length_firstn (Z.to_nat n) l). lia.
Qed.

(** The list a query yields once the [Timedelta] exists, whatever the
    provider did: bounded by the number of rows asked for, and with an error
    entry only when the provider raised, in which case the entry is alone. *)
Lemma fetch_news_result (q : string) (h n : Z) (w : World) :
  timedelta_ok h = true ->
  exists ns,
    fetch_news_gdelt P q h n w = (Ok ns, after_query P q h w) /\
    ((0 <= n)%Z -> (List.length ns <= Nat.max (Z.to_nat n) 1)%nat) /\
    (forall e, In (NewsError e) ns ->
       ns = [NewsError e] /\
       exists e', article_search P (query_filters P q h w) = Raise e' /\
                  e = MSG_NEWS_FAILED ++ e').
Proof.
  intros Hh.
  destruct (article_search P (query_filters P q h w)) as [[a|]|e0] eqn:E.
  - destruct (rows a) as [|r rs] eqn:Er.
    + exists []. split; [apply (fetch_news_empty P q h n w a Hh E Er)|].
      split; [simpl; lia|intros e []].
    + assert (Hne : rows a <> []) by (rewrite Er; discriminate).
      eexists. split; [apply (fetch_news_rows P q h n w a Hh E Hne)|]. split.
      * intros Hn. rewrite length_map.
        pose proof (head_length _ n (rows (ordered P a)) Hn). lia.
      * intros e Hin. exfalso.
        exact (reduced_rows_are_articles _ _ _ Hin).
  - exists []. split; [apply (fetch_news_none P q h n w Hh E)|].
    split; [simpl; lia|intros e []].
  - exists [NewsError (MSG_NEWS_FAILED ++ e0)].
    split; [apply (fetch_news_raise P q h n w e0 Hh E)|].
    split; [simpl; lia|].
    intros e [He|[]]. injection He as <-. split; [reflexivity|].
    exists e0. split; reflexivity.
Qed.

(** X7: [fetch_news_gdelt] can raise in one way only, before its [try]:
    when [hours_back] does not fit a [Timedelta] it raises after one clock
    reading, without a query.  For every other [hours_back] it never raises,
    whatever the provider does: it reads the clock twice and sends exactly
    one query, for the keyword it was given, and touches nothing else.  For
    [max_n >= 0] its list has at most [max_n] entries, or the one error
    entry; an error entry appears only when the provider raised, alone and
    with the provider's message after the fixed prefix. *)
Theorem news_query_contract (q : string) (h n : Z) (w : World) :
  (timedelta_ok h = false ->
   fetch_news_gdelt P q h n w = (Raise MSG_OUT_OF_BOUNDS, tick w)) /\
  (timedelta_ok h = true ->
   exists ns w',
     fetch_news_gdelt P q h n w = (Ok ns, w') /\
     searches w' = (searches w ++ [query_filters P q h w])%list /\
     keyword (query_filters P q h w) = q /\
     clock_reads w' = S (S (clock_reads w)) /\
     downloads w' = downloads w /\
     written w' = written w /\
     ((0 <= n)%Z -> (List.length ns <= Nat.max (Z.to_nat n) 1)%nat) /\
     (forall e, In (NewsError e) ns ->
        ns = [NewsError e] /\
        exists e', article_search P (query_filters P q h w) = Raise e' /\
                   e = MSG_NEWS_FAILED ++ e')).
Proof.
  split.
  - intros Hh. unfold fetch_news_gdelt, now, lift, Timedelta.
    cbn [bind M_monad]. rewrite Hh. reflexivity.
  - intros Hh.
    destruct (fetch_news_result q h n w Hh) as (ns & Hrun & Hlen & Herr).
    exists ns, (after_query P q h w).
    split; [exact Hrun|]. repeat split; try assumption.
    + apply Herr. assumption.
    + apply Herr. assumption.
Qed.

Lemma news_for_result (q : string) (w : World) :
  (List.length (news_for P q w) <= 5)%nat /\
  well_formed_news (news_for P q w).
Proof.
  unfold news_for, well_formed_news.
  destruct (fetch_news_result q 72 5 w eq_refl) as (ns & Hrun & Hlen & Herr).
  rewrite Hrun. cbn [fst]. split; [apply Hlen; discriminate|].
  intros e Hin. apply Herr. exact Hin.
Qed.

(** X8: in the document of a run every item has a news list; the list has at
    most five entries; and an error entry, when there is one, is its only
    entry. *)
Theorem news_lists_are_well_formed (w0 w : World) :
  main P w0 = (Ok tt, w) ->
  exists doc,
    written w = Some (OUTPUT_PATH, doc) /\
    forall it, In it (items doc) ->
      exists ns, get_news it = Some ns /\
                 (List.length ns <= 5)%nat /\
                 well_formed_news ns.
Proof.
  intros H.
  destruct (written_document P w0 w H) as (its & weights & _ & _ & Hdoc & _).
  exists (document P w0 weights its). split; [exact Hdoc|].
  cbn [items document]. intros it' Hin.
  destruct (enrich_all_In P _ _ _ Hin) as (it & w1 & _ & ->).
  eexists. split; [apply set_news_fields|].
  destruct (triggers (get_pct it)).
  - apply news_for_result.
  - split; [simpl; lia|intros e []].
Qed.

(** The queries the news loop adds to the log, and the clock readings it
    uses for them. *)
Lemma after_news_log (its : list Item) (w : World) :
  exists new,
    searches (after_news P its w) = (searches w ++ new)%list /\
    clock_reads (after_news P its w) = (clock_reads w + 2 * List.length new)%nat /\
    Forall (fun f =>
              exists k,
                (clock_reads w <= k)%nat /\
                (k + 2 <= clock_reads w + 2 * List.length new)%nat /\
                start_date f
                = strftime P (minus_hours (reading P k) 72) "%Y-%m-%d" /\
                end_date f = strftime P (reading P (S k)) "%Y-%m-%d")
           new.
Proof.
  revert w. unfold after_news.
  induction its as [|it rest IH]; intros w.
  - exists []. cbn. rewrite app_nil_r, Nat.add_0_r. auto.
  - cbn [fold_left]. destruct (IH (after_enrich P w it)) as (new & Hs & Hc & Hf).
    unfold after_enrich in *.
    destruct (triggers (get_pct it)).
    + exists (query_filters P (get_ticker it) 72 w :: new).
      rewrite Hs, Hc. cbn [after_query log_search tick searches clock_reads
                             List.length].
      split; [rewrite <- app_assoc; reflexivity|]. split; [lia|].
      constructor.
      * exists (clock_reads w). split; [lia|]. split; [lia|].
        split; reflexivity.
      * refine (Forall_impl _ _ Hf). intros f (k & Hk1 & Hk2 & Hd).
        cbn [after_query log_search tick clock_reads] in Hk1, Hk2.
        exists k. split; [lia|]. split; [lia|exact Hd].
    + exists new. auto.
Qed.

(** X9: a completed run reads the clock twice for each news query and once
    more for the stamp.  Every news query asks for the news from 72 hours
    before one clock reading up to the next reading, both formatted as
    dates; and [generated_at_utc] is the last reading of the run, taken
    after every fetch and every news query. *)
Theorem clock_readings_of_a_run (w0 w : World) :
  main P w0 = (Ok tt, w) ->
  exists doc new,
    written w = Some (OUTPUT_PATH, doc) /\
    searches w = (searches w0 ++ new)%list /\
    clock_reads w = (clock_reads w0 + 2 * List.length new + 1)%nat /\
    generated_at_utc doc
    = isoformat P (reading P (clock_reads w0 + 2 * List.length new)) /\
    Forall (fun f =>
              exists k,
                (clock_reads w0 <= k)%nat /\
                (k + 2 <= clock_reads w0 + 2 * List.length new)%nat /\
                start_date f
                = strftime P (minus_hours (reading P k) 72) "%Y-%m-%d" /\
                end_date f = strftime P (reading P (S k)) "%Y-%m-%d")
           new.
Proof.
  intros H.
  destruct (main_inv P w0 w H) as (its & weights & _ & _ & _ & ->).
  destruct (after_news_log its (after_fetch (resolve_tickers P) w0))
    as (new & Hs & Hc & Hf).
  destruct (log_downloads_fields (resolve_tickers P) w0) as (_ & Hs0 & Hc0 & _).
  fold (after_fetch (resolve_tickers P) w0) in Hs0, Hc0.
  rewrite Hs0, Hc0 in *.
  exists (document P w0 weights its), new.
  cbn [written searches clock_reads log_write tick generated_at_utc document].
  rewrite Hs, Hc. unfold reading.
  split; [reflexivity|]. split; [reflexivity|]. split; [lia|].
  split; [reflexivity|exact Hf].
Qed.

End NewsContract.

(** A query for AAA over the last 72 hours, and one over a hundred million
    hours, which no [Timedelta] holds. *)
Lemma news_query_contract_witness :
  fetch_news_gdelt Fake.mixed "AAA" 100000000 5 initial_world
  = (Raise MSG_OUT_OF_BOUNDS, tick initial_world) /\
  exists ns w',
    fetch_news_gdelt Fake.mixed "AAA" 72 5 initial_world = (Ok ns, w') /\
    searches w'
    = (searches initial_world
       ++ [query_filters Fake.mixed "AAA" 72 initial_world])%list /\
    keyword (query_filters Fake.mixed "AAA" 72 initial_world) = "AAA" /\
    clock_reads w' = S (S (clock_reads initial_world)) /\
    downloads w' = downloads initial_world /\
    written w' = written initial_world /\
    ((0 <= 5)%Z -> (List.length ns <= Nat.max (Z.to_nat 5) 1)%nat) /\
    (forall e, In (NewsError e) ns ->
       ns = [NewsError e] /\
       exists e',
         article_search Fake.mixed
           (query_filters Fake.mixed "AAA" 72 initial_world) = Raise e' /\
         e = MSG_NEWS_FAILED ++ e').
Proof.
  split.
  - apply (proj1 (news_query_contract Fake.mixed "AAA" 100000000 5
                    initial_world)).
    reflexivity.
  - apply (proj2 (news_query_contract Fake.mixed "AAA" 72 5 initial_world)).
    reflexivity.
Defined.

(** The mixed run: eight fetches, four queries, nine clock readings. *)
Lemma news_lists_are_well_formed_witness :
  exists doc,
    written (snd (main Fake.mixed initial_world)) = Some (OUTPUT_PATH, doc) /\
    forall it, In it (items doc) ->
      exists ns, get_news it = Some ns /\
                 (List.length ns <= 5)%nat /\
                 well_formed_news ns.
Proof.
  apply (news_lists_are_well_formed Fake.mixed initial_world
           (snd (main Fake.mixed initial_world))).
  vm_compute. reflexivity.
Defined.

Lemma clock_readings_of_a_run_witness :
  exists doc new,
    written (snd (main Fake.mixed initial_world)) = Some (OUTPUT_PATH, doc) /\
    searches (snd (main Fake.mixed initial_world))
    = (searches initial_world ++ new)%list /\
    clock_reads (snd (main Fake.mixed initial_world))
    = (clock_reads initial_world + 2 * List.length new + 1)%nat /\
    generated_at_utc doc
    = isoformat Fake.mixed
        (reading Fake.mixed (clock_reads initial_world + 2 * List.length new)) /\
    Forall (fun f =>
              exists k,
                (clock_reads initial_world <= k)%nat /\
                (k + 2 <= clock_reads initial_world + 2 * List.length new)%nat /\
                start_date f
                = strftime Fake.mixed (minus_hours (reading Fake.mixed k) 72)
                    "%Y-%m-%d" /\
                end_date f
                = strftime Fake.mixed (reading Fake.mixed (S k)) "%Y-%m-%d")
           new.
Proof.
  apply (clock_readings_of_a_run Fake.mixed initial_world
           (snd (main Fake.mixed initial_world))).
  vm_compute. reflexivity.
Defined.

(* ================================================================== *)
(** * Floating-point corners of the threshold and of the weights *)
(* ================================================================== *)

Lemma abs_opp (p : float) : abs (- p) = abs p.
Proof.
  apply Prim2SF_inj. rewrite !abs_spec, opp_spec.
  destruct (Prim2SF p); reflexivity.
Qed.

(** X10: the threshold looks at the size of the move only: a fall triggers
    the news query exactly when the rise of the same size does. *)
Theorem threshold_is_symmetric (p : float) :
  triggers (Some (- p)%float) = triggers (Some p).
Proof.
  unfold triggers. rewrite abs_opp. reflexivity.
Qed.

Lemma is_nan_Prim2SF (x : float) :
  is_nan x = true -> Prim2SF x = S754_nan.
Proof.
  intros H. unfold Prim2SF. rewrite H. reflexivity.
Qed.

Lemma add_nan_l (x y : float) :
  Prim2SF x = S754_nan -> Prim2SF (x + y) = S754_nan.
Proof.
  intros H. rewrite add_spec, H. reflexivity.
Qed.

Lemma add_nan_r (x y : float) :
  Prim2SF y = S754_nan -> Prim2SF (x + y) = S754_nan.
Proof.
  intros H. rewrite add_spec, H. destruct (Prim2SF x); reflexivity.
Qed.

Lemma fold_add_nan (l : list float) (acc : float) :
  Prim2SF acc = S754_nan -> Prim2SF (fold_left PrimFloat.add l acc) = S754_nan.
Proof.
  revert acc. induction l as [|x xs IH]; intros acc H; [exact H|].
  simpl. apply IH. apply add_nan_l. exact H.
Qed.

(** A sum with a NaN among its terms is NaN. *)
Lemma sum_nan (l : list float) :
  Exists (fun x => is_nan x = true) l -> Prim2SF (Py.sum l) = S754_nan.
Proof.
  unfold Py.sum. generalize 0%float as acc.
  induction l as [|x xs IH]; intros acc H; inversion H; subst; simpl.
  - apply fold_add_nan. apply add_nan_r. apply is_nan_Prim2SF. assumption.
  - apply IH. assumption.
Qed.

Lemma nan_not_positive (s : float) :
  Prim2SF s = S754_nan -> (0 <? s)%float = false.
Proof.
  intros H. rewrite ltb_spec, H. reflexivity.
Qed.

Lemma parses_functional (P : Platform) (entries : list string)
    (w w' : list float) :
  parses P entries w -> parses P entries w' -> w = w'.
Proof.
  intros H H'. apply parse_all_iff in H, H'. congruence.
Qed.

(** X11: when the entries of [WEIGHTS] all parse and one of them is NaN,
    there are no weights, whatever the other entries are: the sum is NaN,
    which is not greater than zero. *)
Theorem nan_weight_disables_weighting (P : Platform) (tickers : list string)
    (w : list float) :
  parses P (split "," (os_getenv P "WEIGHTS" "")) w ->
  Exists (fun x => is_nan x = true) w ->
  resolve_weights P tickers = Ok None.
Proof.
  intros Hp Hnan.
  destruct (resolve_weights_total P tickers) as [[ws|] Hr]; [|exact Hr].
  exfalso. revert Hr. unfold resolve_weights.
  destruct (truthy_str (os_getenv P "WEIGHTS" "")); [|discriminate].
  unfold try_except.
  destruct (parse_weights P (os_getenv P "WEIGHTS" "") tickers) as [r|e] eqn:E;
    [|discriminate].
  intros Hr. injection Hr as ->.
  apply parse_weights_accepts in E. destruct E as (w' & Hp' & _ & Hpos & _).
  rewrite (parses_functional P _ w' w Hp' Hp) in Hpos.
  rewrite (nan_not_positive _ (sum_nan w Hnan)) in Hpos. discriminate.
Qed.

(** [WEIGHTS="1,nan"] for two tickers. *)
Lemma nan_weight_disables_weighting_witness :
  resolve_weights (Fake.platform (Some "aaa,ddd") (Some "1,nan") 0)
                  ["AAA"; "DDD"]
  = Ok None.
Proof.
  apply (nan_weight_disables_weighting
           (Fake.platform (Some "aaa,ddd") (Some "1,nan") 0)
           ["AAA"; "DDD"] [1%float; nan]).
  - repeat constructor.
  - right. left. reflexivity.
Defined.
